(** * Match scoring, trust tiers and candidate ranking of the dating backend

    A shallow embedding of
      - [backend/events/ai_matching.py]
          ([EnhancedFeatureVector], [ExplainableMatcher],
           [TrustVerificationSystem]),
      - [backend/profiles/recommendation_engine.py] ([calculate_similarity]),
      - [backend/profiles/views.py] ([profile_recommendations]),
      - [backend/profiles/models.py] ([Profile.calculate_completion_score]),
    followed by the properties established about them.

    Conventions.
      - Database tables are lists of records; an ORM query is a [filter] over
        the list and [.count()] is [length].
      - A Python exception is the [Raise] branch of [result].
      - Python floats are idealised: as rationals ([Q]) where the source only
        adds, multiplies, divides and takes minima, and as reals ([R]) where
        it takes square roots (numpy's norm).  Rounding, overflow and the
        wrap-around of numpy's integer arrays are not modelled.
      - [timezone.now()] is an input: [now] is the instant in seconds and
        [today] the calendar date of the same instant. *)

From Stdlib Require Import Ascii String ZArith QArith Qminmax Qabs Qround Reals.
From Stdlib Require Import Lqa Lra Lia List.
From stdpp Require Import gmap strings list fin_maps sorting.

(** ** Python run-time conventions *)

Module Py.

Inductive exn : Type :=
  | TypeError
  | ValueError
  | KeyError
  | FloatDivisionByZero
  | RelatedObjectDoesNotExist
  | DbError.

Inductive result (A : Type) : Type :=
  | Ok (a : A)
  | Raise (e : exn).

Arguments Ok {A} a.
Arguments Raise {A} e.

(** The error monad, through stdpp's [x ← r; k] notation. *)
#[global] Instance result_ret : MRet result := fun A a => Ok a.

#[global] Instance result_bind : MBind result := fun A B k r =>
  match r with
  | Ok a => k a
  | Raise e => Raise e
  end.

(** A loop that keeps the elements passing a test that may raise:
    [for x in l: if f(x): kept.append(x)]; the first failure aborts. *)
Fixpoint filter_each {A : Type} (f : A → result bool) (l : list A) : result (list A) :=
  match l with
  | [] => Ok []
  | x :: l' =>
      keep ← f x;
      kept ← filter_each f l';
      Ok (if keep : bool then x :: kept else kept)
  end.

(** [[f(x) for x in l]] where [f] may raise: the first failure aborts. *)
Fixpoint for_each {A B : Type} (f : A → result B) (l : list A) : result (list B) :=
  match l with
  | [] => Ok []
  | x :: l' =>
      y ← f x;
      ys ← for_each f l';
      Ok (y :: ys)
  end.

(** Stable sorting.  [lt a b] is the strict "a goes before b" test; an element
    is placed after every element that does not go strictly after it, so that
    equal elements keep the order they had in the input.  This is the
    behaviour of [sorted], of [list.sort] (with or without [reverse=True]) and
    of a database [ORDER BY] whose ties are broken by storage order. *)
Fixpoint insert_sorted {A : Type} (lt : A → A → bool) (x : A) (l : list A) : list A :=
  match l with
  | [] => [x]
  | y :: l' => if lt y x then y :: insert_sorted lt x l' else x :: y :: l'
  end.

Definition stable_sort {A : Type} (lt : A → A → bool) (l : list A) : list A :=
  foldr (insert_sorted lt) [] l.

(** Truthiness of an optional float: [None] and [0.0] are false. *)
Definition truthy_float (x : option Q) : bool :=
  match x with
  | Some q => negb (Qeq_bool q 0)
  | None => false
  end.

(** Truthiness of an optional object ([date], [datetime]): only [None] is false. *)
Definition truthy_obj {A : Type} (x : option A) : bool :=
  match x with
  | Some _ => true
  | None => false
  end.

(** Truthiness of a string: the empty string is false. *)
Definition truthy_str (s : string) : bool :=
  match s with
  | EmptyString => false
  | String _ _ => true
  end.

(** [sep.join(l)]. *)
Definition join (sep : string) (l : list string) : string := String.concat sep l.

(** [sum(l)] over rationals, starting from 0 and adding left to right. *)
Definition sumQ (l : list Q) : Q := fold_left Qplus l 0%Q.

(** An integer seen as a float. *)
Definition ofZ (z : Z) : Q := inject_Z z.
Definition ofnat (n : nat) : Q := inject_Z (Z.of_nat n).

End Py.

Import Py.

(** ** Calendar dates ([datetime.date]) *)

Module Dates.

Record date : Type := Date { year : Z; month : Z; day : Z }.

Definition is_leap (y : Z) : bool :=
  (y mod 4 =? 0)%Z && (negb (y mod 100 =? 0)%Z || (y mod 400 =? 0)%Z).

Definition days_in_month (y m : Z) : Z :=
  if (m =? 2)%Z then (if is_leap y then 29 else 28)%Z
  else if (m =? 4)%Z || (m =? 6)%Z || (m =? 9)%Z || (m =? 11)%Z then 30%Z
  else 31%Z.

Definition days_before_year (y : Z) : Z :=
  let p := (y - 1)%Z in (p * 365 + p / 4 - p / 100 + p / 400)%Z.

Definition days_before_month (y m : Z) : Z :=
  foldr Z.add 0%Z (map (days_in_month y) (map Z.of_nat (seq 1 (Z.to_nat (m - 1))))).

(** [date.toordinal()]: day number in the proleptic Gregorian calendar. *)
Definition toordinal (d : date) : Z :=
  (days_before_year (year d) + days_before_month (year d) (month d) + day d)%Z.

(** [(a - b).days] *)
Definition days_between (a b : date) : Z := (toordinal a - toordinal b)%Z.

(** [a <= b] on dates. *)
Definition date_leb (a b : date) : bool :=
  (year a <? year b)%Z
  || ((year a =? year b)%Z
      && ((month a <? month b)%Z
          || ((month a =? month b)%Z && (day a <=? day b)%Z))).

(** [d.replace(year=y)] raises [ValueError] when the result is not a date:
    29 February moved to a common year, or a year outside 1..9999. *)
Definition replace_year (d : date) (y : Z) : result date :=
  if (1 <=? y)%Z && (y <=? 9999)%Z && (day d <=? days_in_month y (month d))%Z
  then Ok (Date y (month d) (day d))
  else Raise ValueError.

End Dates.

Import Dates.

(** ** Stored records ([models.py] of profiles, accounts, interactions, chat) *)

Module Models.

Record Photo : Type := { is_primary : bool }.

(** A [ProfileInterest] row joined with its [Interest]. *)
Record ProfileInterest : Type := { interest_id : Z; interest_name : string }.

(** An item of the JSON list stored in [Profile.values].  The application
    reads two shapes there ([serialize_profile_values],
    [profiles/serializers.py]): a string, or an object with an [id] and a
    label.  Of an object only its presence matters to the modelled code. *)
Inductive ValueItem : Type :=
  | ItemStr (s : string)
  | ItemDict.

Record Profile : Type := {
  profile_user : Z;                 (* user_id of the owning user *)
  bio : string;
  date_of_birth : option date;
  gender : string;
  looking_for : string;
  relationship_status : string;
  location : string;
  country : string;
  latitude : option Q;
  longitude : option Q;
  max_distance : Z;
  min_age : Z;
  max_age : Z;
  is_active : bool;
  is_hidden : bool;
  boost_expiry : option Z;          (* DateTimeField(null=True) *)
  passport_latitude : option Q;
  passport_longitude : option Q;
  is_passport_enabled : bool;
  values : option (list ValueItem); (* JSONField(default=list, null=True) *)
  photos : list Photo;
  interests : list ProfileInterest
}.

(** A user together with the stored [Profile] row, if there is one.  Without
    a row the attribute access [user.profile] raises
    [RelatedObjectDoesNotExist] (the reverse side of a one-to-one relation),
    which [hasattr(user, 'profile')] turns into [False]; with a row the
    profile is truthy. *)
Record User : Type := {
  user_id : Z;
  email : string;
  is_verified : bool;
  profile : option Profile
}.

Record Swipe : Type := {
  swiper : Z;
  swiped_user : Z;
  action : string;
  swipe_created_at : Z
}.

Record Match : Type := {
  match_id : Z;
  user1 : Z;
  user2 : Z;
  match_is_active : bool
}.

Record Conversation : Type := { conversation_id : Z; conversation_match : Z }.

Record Message : Type := {
  message_conversation : Z;
  sender : Z;
  created_at : Z
}.

Record Block : Type := { blocker : Z; blocked_user : Z }.

(** The tables read by the modelled code.  [feature_vectors] is the
    [UserFeatureVector] table keyed by user: no entry means no row, and the
    stored JSON object is a map from feature name to number. *)
Record DB : Type := {
  profiles : list Profile;
  swipes : list Swipe;
  matches : list Match;
  conversations : list Conversation;
  messages : list Message;
  blocks : list Block;
  feature_vectors : gmap Z (gmap string R)
}.

Definition has_primary_photo (p : Profile) : bool :=
  existsb is_primary (photos p).

(** The stored [values] are null or a list of strings. *)
Definition is_str (i : ValueItem) : bool :=
  match i with
  | ItemStr _ => true
  | ItemDict => false
  end.

Definition values_are_strings (p : Profile) : bool :=
  match values p with
  | Some l => forallb is_str l
  | None => true
  end.

(** [Profile.calculate_completion_score]; [self.user] is passed as [u] and
    [self.pk] is set for every stored profile. *)
Definition calculate_completion_score (u : User) (p : Profile) : Z :=
  let score := 0%Z in
  let total_fields := 10%Z in
  let score := if truthy_str (bio p) then (score + 1)%Z else score in
  let score := if truthy_obj (date_of_birth p) then (score + 1)%Z else score in
  let score := if truthy_str (gender p) then (score + 1)%Z else score in
  let score := if truthy_str (looking_for p) then (score + 1)%Z else score in
  let score := if truthy_str (relationship_status p) then (score + 1)%Z else score in
  let score :=
    if truthy_str (location p) && truthy_float (latitude p) && truthy_float (longitude p)
    then (score + 1)%Z else score in
  let score := if has_primary_photo p then (score + 1)%Z else score in
  let score := if negb (bool_decide (interests p = [])) then (score + 1)%Z else score in
  let score := if truthy_str (email u) && is_verified u then (score + 1)%Z else score in
  let score := if is_active p then (score + 1)%Z else score in
  Qfloor ((ofZ score / ofZ total_fields) * 100)%Q.

End Models.

Import Models.

(** ** [events/ai_matching.py] *)

Module AiMatching.

(** *** class EnhancedFeatureVector

    The dictionary built by [_build_feature_vector] as a record.  Its entries
    [demographics.location], [preferences.intent] and [last_updated] are read
    by no scoring function and are left out. *)

Record Demographics : Type := { age : Z; demo_gender : string }.

Record Preferences : Type := { age_range : Z * Z; distance_km : Z }.

Record BehavioralSignals : Type := {
  reply_latency_avg : Q;
  chat_depth_score : Q;
  unmatch_rate : Q;
  total_likes : nat;
  total_passes : nat;
  total_matches : nat;
  like_rate : Q
}.

Record FeatureVector : Type := {
  demographics : Demographics;
  preferences : Preferences;
  fv_interests : list string;
  fv_values : list ValueItem;
  behavioral_signals : BehavioralSignals;
  trust_score : Q;
  engagement_score : Q
}.

Section Methods.

(** [str.lower], of the Python library. *)
Variable str_lower : string → string.

(** [self.user], the database, and the clock.  [self.profile] is
    [profile user]; the methods keep their guards [if not self.profile]. *)
Variable (db : DB) (user : User) (now : Z) (today : date).

Definition _get_demographics : Demographics :=
  match profile user with
  | None => {| age := 25; demo_gender := "unknown" |}
  | Some p =>
      let age :=
        match date_of_birth p with
        | Some dob => (days_between today dob / 365)%Z
        | None => 25%Z
        end in
      {| age := age; demo_gender := gender p |}
  end.

Definition _get_preferences : Preferences :=
  match profile user with
  | None => {| age_range := (18, 100)%Z; distance_km := 50 |}
  | Some p => {| age_range := (min_age p, max_age p); distance_km := max_distance p |}
  end.

Definition _get_interests : list string :=
  match profile user with
  | None => []
  | Some p => map (fun i => str_lower (interest_name i)) (interests p)
  end.

Definition _get_values : list ValueItem :=
  match profile user with
  | None => []
  | Some p =>
      match values p with
      | Some (v :: vs) => v :: vs
      | _ => []
      end
  end.

(** [Q(match__user1=self.user) | Q(match__user2=self.user)] on conversations. *)
Definition in_user_match (c : Conversation) : bool :=
  existsb (fun m => (match_id m =? conversation_match c)%Z
                    && ((user1 m =? user_id user)%Z || (user2 m =? user_id user)%Z))
          (matches db).

Definition user_conversations : list Conversation :=
  filter (fun c => in_user_match c = true) (conversations db).

(** [Message.objects.filter(conversation=conv)] *)
Definition conversation_messages (c : Conversation) : list Message :=
  filter (fun m => message_conversation m = conversation_id c) (messages db).

(** The inner loop of [_calculate_reply_latencies] over the messages of one
    conversation; [prev_time] is the loop variable of that name. *)
Fixpoint walk_messages (prev_time : option Z) (msgs : list Message) : list Q :=
  match msgs with
  | [] => []
  | msg :: rest =>
      if negb (sender msg =? user_id user)%Z then
        let recorded :=
          match prev_time with
          | Some t =>
              let latency := (ofZ (created_at msg - t) / 60)%Q in
              [Qmin latency 1440]
          | None => []
          end in
        recorded ++ walk_messages (Some (created_at msg)) rest
      else walk_messages prev_time rest
  end.

Definition _calculate_reply_latencies : list Q :=
  concat (map (fun conv =>
                 let messages :=
                   stable_sort (fun a b => (created_at a <? created_at b)%Z)
                               (conversation_messages conv) in
                 walk_messages None messages)
              user_conversations).

Definition _calculate_chat_depth_score : Q :=
  match user_conversations with
  | [] => 0%Q
  | _ =>
      let total_conversations := length user_conversations in
      let deep_conversations :=
        length (filter (fun conv => (10 <=? length (conversation_messages conv))%nat = true)
                       user_conversations) in
      (ofnat deep_conversations / ofnat total_conversations)%Q
  end.

Definition user_matches : list Match :=
  filter (fun m => (user1 m =? user_id user)%Z || (user2 m =? user_id user)%Z = true)
         (matches db).

Definition _calculate_unmatch_rate : Q :=
  let total_matches := length user_matches in
  if (total_matches =? 0)%nat then 0%Q
  else
    let expired_matches :=
      length (filter (fun m => match_is_active m = false) user_matches) in
    (ofnat expired_matches / ofnat total_matches)%Q.

Definition swipes_with_action (a : string) : list Swipe :=
  filter (fun s => swiper s = user_id user ∧ action s = a) (swipes db).

Definition _get_behavioral_signals : BehavioralSignals :=
  let reply_latencies := _calculate_reply_latencies in
  let reply_latency_avg :=
    match reply_latencies with
    | [] => 300%Q
    | _ => (sumQ reply_latencies / ofnat (length reply_latencies))%Q
    end in
  let chat_depth_score := _calculate_chat_depth_score in
  let unmatch_rate := _calculate_unmatch_rate in
  let total_likes := length (swipes_with_action "like") in
  let total_passes := length (swipes_with_action "pass") in
  let total_matches :=
    length (filter (fun m => match_is_active m = true) user_matches) in
  {| reply_latency_avg := reply_latency_avg;
     chat_depth_score := chat_depth_score;
     unmatch_rate := unmatch_rate;
     total_likes := total_likes;
     total_passes := total_passes;
     total_matches := total_matches;
     like_rate :=
       if (0 <? total_likes + total_passes)%nat
       then (ofnat total_likes / ofnat (total_likes + total_passes))%Q
       else 0%Q |}.

Definition _calculate_trust_score : Q :=
  let score := 0.5%Q in
  let score := if is_verified user then (score + 0.2)%Q else score in
  let score :=
    match profile user with
    | Some p => if has_primary_photo p then (score + 0.1)%Q else score
    | None => score
    end in
  let score := Qmin score 1 in
  Qmax score 0.

Definition _calculate_engagement_score : Q :=
  let score := 0%Q in
  let thirty_days_ago := (now - 30 * 86400)%Z in
  let recent_likes :=
    length (filter (fun s => swiper s = user_id user
                             ∧ (thirty_days_ago <= swipe_created_at s)%Z)
                   (swipes db)) in
  let recent_messages :=
    length (filter (fun m => sender m = user_id user
                             ∧ (thirty_days_ago <= created_at m)%Z)
                   (messages db)) in
  let activity_score := Qmin (ofnat (recent_likes + recent_messages) / 50) 1 in
  let score := (score + activity_score * 0.7)%Q in
  let score :=
    match profile user with
    | Some p =>
        let completion_score := (ofZ (calculate_completion_score user p) / 100)%Q in
        (score + completion_score * 0.3)%Q
    | None => score
    end in
  Qmin score 1.

Definition _build_feature_vector : FeatureVector :=
  {| demographics := _get_demographics;
     preferences := _get_preferences;
     fv_interests := _get_interests;
     fv_values := _get_values;
     behavioral_signals := _get_behavioral_signals;
     trust_score := _calculate_trust_score;
     engagement_score := _calculate_engagement_score |}.

(** [__init__].  [self.profile = user.profile] follows the reverse side of
    the one-to-one relation of [Profile.user], which raises
    [RelatedObjectDoesNotExist] for a user without [Profile] row; the vector
    is built only after that, so that through the constructor the guards of
    the methods always see a profile. *)
Definition EnhancedFeatureVector : result FeatureVector :=
  match profile user with
  | None => Raise RelatedObjectDoesNotExist
  | Some _ => Ok _build_feature_vector
  end.

End Methods.

(** *** class ExplainableMatcher *)

Inductive Component : Type :=
  | preference_alignment
  | interest_similarity
  | values_compatibility
  | behavioral_compatibility
  | trust_safety_score
  | activity_recency.

(** [self.weights] *)
Definition weights (c : Component) : Q :=
  match c with
  | preference_alignment => 0.25
  | interest_similarity => 0.20
  | values_compatibility => 0.20
  | behavioral_compatibility => 0.15
  | trust_safety_score => 0.10
  | activity_recency => 0.10
  end%Q.

(** [set(l)], its emptiness test and its size.  Python leaves the iteration
    order of a set unspecified; [elements] stands for it in [list(s)[:n]]. *)
Definition py_set (l : list string) : gset string := list_to_set l.
Definition set_is_empty (s : gset string) : bool := bool_decide (s = ∅).

(** [set(l)] on the items of a JSON list: a string is hashable, an object (a
    [dict]) is not, and hashing it raises [TypeError]. *)
Definition hash_item (i : ValueItem) : result string :=
  match i with
  | ItemStr s => Ok s
  | ItemDict => Raise TypeError
  end.

Definition set_of_items (l : list ValueItem) : result (gset string) :=
  items ← for_each hash_item l;
  Ok (py_set items).

Definition _calculate_preference_alignment (v1 v2 : FeatureVector) : Q * list string :=
  let reasons := [] in
  let score := 0%Q in
  let user1_age := age (demographics v1) in
  let user2_age := age (demographics v2) in
  let user1_pref := age_range (preferences v1) in
  let user2_pref := age_range (preferences v2) in
  let age_match_1 := (user1_pref.1 <=? user2_age)%Z && (user2_age <=? user1_pref.2)%Z in
  let age_match_2 := (user2_pref.1 <=? user1_age)%Z && (user1_age <=? user2_pref.2)%Z in
  let '(score, reasons) :=
    if age_match_1 && age_match_2 then
      ((score + 0.6)%Q, reasons ++ ["Age preferences are mutually compatible"])
    else if age_match_1 || age_match_2 then
      ((score + 0.3)%Q, reasons ++ ["Age preferences partially align"])
    else
      (score, reasons ++ ["Age preferences don't align"]) in
  let score := (score + 0.4)%Q in
  (Qmin score 1, reasons).

Definition _calculate_interest_similarity (v1 v2 : FeatureVector) : Q * list string :=
  let interests1 := py_set (fv_interests v1) in
  let interests2 := py_set (fv_interests v2) in
  if set_is_empty interests1 || set_is_empty interests2 then
    (0.5%Q, ["Limited interest data available"])
  else
    let intersection := interests1 ∩ interests2 in
    let union := interests1 ∪ interests2 in
    let similarity :=
      if set_is_empty union then 0%Q
      else (ofnat (size intersection) / ofnat (size union))%Q in
    let reasons :=
      if negb (set_is_empty intersection) then
        let shared := take 3 (elements intersection) in
        ["Shared interests: " +:+ join ", " shared]
      else ["No shared interests found"] in
    (similarity, reasons).

Definition _calculate_values_compatibility (v1 v2 : FeatureVector)
  : result (Q * list string) :=
  values1 ← set_of_items (fv_values v1);
  values2 ← set_of_items (fv_values v2);
  if set_is_empty values1 || set_is_empty values2 then
    Ok (0.5%Q, ["Limited values data available"])
  else
    let intersection := values1 ∩ values2 in
    let compatibility :=
      (ofnat (size intersection) / ofnat (Nat.max (size values1) (size values2)))%Q in
    let reasons :=
      if negb (set_is_empty intersection) then
        let shared := take 2 (elements intersection) in
        ["Shared values: " +:+ join ", " shared]
      else ["Different value systems"] in
    Ok (compatibility, reasons).

Definition _calculate_behavioral_compatibility (v1 v2 : FeatureVector) : Q * list string :=
  let b1 := behavioral_signals v1 in
  let b2 := behavioral_signals v2 in
  let reasons := [] in
  let latency_diff := Qabs (reply_latency_avg b1 - reply_latency_avg b2) in
  let '(reasons, latency_score) :=
    if Qlt_le_dec latency_diff 60
    then (reasons ++ ["Similar communication response times"], 0.8%Q)
    else (reasons ++ ["Different communication paces"], 0.4%Q) in
  let engagement_diff := Qabs (like_rate b1 - like_rate b2) in
  let '(reasons, engagement_score) :=
    if Qlt_le_dec engagement_diff 0.2
    then (reasons ++ ["Similar engagement patterns"], 0.8%Q)
    else (reasons ++ ["Different engagement levels"], 0.4%Q) in
  (((latency_score + engagement_score) / 2)%Q, reasons).

Definition _calculate_trust_safety_score (v1 v2 : FeatureVector) : Q * list string :=
  let trust1 := trust_score v1 in
  let trust2 := trust_score v2 in
  let combined_trust := ((trust1 + trust2) / 2)%Q in
  let reasons :=
    if Qlt_le_dec 0.8 combined_trust then ["Both users have high trust scores"]
    else if Qlt_le_dec 0.6 combined_trust then ["Both users have good trust scores"]
    else ["Trust verification recommended"] in
  (combined_trust, reasons).

Definition _calculate_activity_recency (v1 v2 : FeatureVector) : Q * list string :=
  (0.7%Q, ["Both users are actively engaged"]).

(** The six component calls of [calculate_match_score], in the order in which
    the source makes them, stores their scores in [scores] and extends
    [reasons]; the third one may raise. *)
Definition component_results (v1 v2 : FeatureVector)
  : result (list (Component * (Q * list string))) :=
  let pref := _calculate_preference_alignment v1 v2 in
  let interest := _calculate_interest_similarity v1 v2 in
  values ← _calculate_values_compatibility v1 v2;
  let behavioral := _calculate_behavioral_compatibility v1 v2 in
  let trust := _calculate_trust_safety_score v1 v2 in
  let recency := _calculate_activity_recency v1 v2 in
  Ok [ (preference_alignment, pref);
       (interest_similarity, interest);
       (values_compatibility, values);
       (behavioral_compatibility, behavioral);
       (trust_safety_score, trust);
       (activity_recency, recency) ].

(** [scores]: the insertion-ordered dictionary from component to score. *)
Definition scores (results : list (Component * (Q * list string))) : list (Component * Q) :=
  map (fun cr => (cr.1, cr.2.1)) results.

(** The body of [calculate_match_score] once both vectors are built. *)
Definition score_of_vectors (v1 v2 : FeatureVector) : result (Q * list string) :=
  results ← component_results v1 v2;
  let reasons := concat (map (fun cr => cr.2.2) results) in
  let final_score := sumQ (map (fun cs => (cs.2 * weights cs.1)%Q) (scores results)) in
  Ok (final_score, reasons).

Definition calculate_match_score (str_lower : string → string)
    (db : DB) (now : Z) (today : date) (user1 user2 : User)
  : result (Q * list string) :=
  vector1 ← EnhancedFeatureVector str_lower db user1 now today;
  vector2 ← EnhancedFeatureVector str_lower db user2 now today;
  score_of_vectors vector1 vector2.

(** *** class TrustVerificationSystem *)

Record TrustLevel : Type := {
  name : string;
  requirements : list string;
  capabilities : list string
}.

Definition TRUST_LEVELS (level : Z) : option TrustLevel :=
  if (level =? 0)%Z then
    Some {| name := "Basic"; requirements := []; capabilities := ["browse"] |}
  else if (level =? 1)%Z then
    Some {| name := "Verified"; requirements := ["email_verified"];
            capabilities := ["browse"; "chat"] |}
  else if (level =? 2)%Z then
    Some {| name := "Photo Verified";
            requirements := ["email_verified"; "photo_verified"];
            capabilities := ["browse"; "chat"; "video"] |}
  else if (level =? 3)%Z then
    Some {| name := "ID Verified";
            requirements := ["email_verified"; "photo_verified"; "id_verified"];
            capabilities := ["browse"; "chat"; "video"; "boost_priority"] |}
  else if (level =? 4)%Z then
    Some {| name := "Trusted";
            requirements := ["email_verified"; "photo_verified"; "id_verified";
                             "behavioral_trust"];
            capabilities := ["browse"; "chat"; "video"; "boost_priority"; "featured"] |}
  else None.

(** [user.profile] is evaluated for every user, verified or not, and raises
    [RelatedObjectDoesNotExist] for a user without [Profile] row; a profile
    that exists is truthy. *)
Definition assess_trust_level (user : User) : result Z :=
  let level := 0%Z in
  let level := if is_verified user then Z.max level 1 else level in
  match profile user with
  | None => Raise RelatedObjectDoesNotExist
  | Some p =>
      let level := if has_primary_photo p then Z.max level 2 else level in
      Ok (Z.min level 4)
  end.

Definition get_required_verifications (current_level target_level : Z) : result (list string) :=
  if (target_level <=? current_level)%Z then Ok []
  else
    foldl (fun acc level =>
             required ← acc;
             match TRUST_LEVELS level with
             | Some t =>
                 let level_reqs := requirements t in
                 Ok (required ++ filter (fun req => req ∉ required) level_reqs)
             | None => Raise KeyError
             end)
          (Ok [])
          (map (fun i => (current_level + 1 + Z.of_nat i)%Z)
               (seq 0 (Z.to_nat (target_level - current_level)))).

Definition can_access_feature (user : User) (feature : string) : result bool :=
  trust_level ← assess_trust_level user;
  match TRUST_LEVELS trust_level with
  | Some t =>
      let level_capabilities := capabilities t in
      Ok (bool_decide (feature ∈ level_capabilities))
  | None => Raise KeyError
  end.

End AiMatching.

Import AiMatching.

(** ** [profiles/recommendation_engine.py] *)

Module RecommendationEngine.

(** Comparison of floats, as booleans. *)
Definition Rltb (a b : R) : bool := if Rlt_dec a b then true else false.
Definition Rleb (a b : R) : bool := if Rle_dec a b then true else false.
Definition Reqb (a b : R) : bool := if Req_dec_T a b then true else false.

(** numpy on one-dimensional arrays, taken as arrays of exact reals.  An
    array built from Python integers has dtype int64, on which [np.dot] wraps
    around, and a float64 array overflows to inf, after which the quotient is
    nan; neither is modelled, so these definitions give the guards and the
    formula of the source but no bound on the magnitude of what numpy
    returns on large entries. *)
Definition np_sum (a : list R) : R := foldr Rplus 0%R a.
Definition np_dot (a b : list R) : R := np_sum (zip_with Rmult a b).
Definition np_linalg_norm (a : list R) : R := sqrt (np_sum (map (fun x => (x * x)%R) a)).

(** Division of two float64 scalars.  numpy answers a division by zero with
    inf or nan and a warning; here it is a failure, so that its absence is a
    property of the caller. *)
Definition np_divide (a b : R) : result R :=
  if Reqb b 0 then Raise FloatDivisionByZero else Ok (a / b)%R.

(** [vector[key]] *)
Definition getitem (vector : gmap string R) (key : string) : result R :=
  match vector !! key with
  | Some x => Ok x
  | None => Raise KeyError
  end.

Definition calculate_similarity (vector1 vector2 : gmap string R) : result R :=
  let common_keys : gset string := dom vector1 ∩ dom vector2 in
  if bool_decide (common_keys = ∅) then Ok 0%R
  else
    let keys := stable_sort String.ltb (elements common_keys) in
    v1 ← for_each (getitem vector1) keys;
    v2 ← for_each (getitem vector2) keys;
    let dot_product := np_dot v1 v2 in
    let norm_a := np_linalg_norm v1 in
    let norm_b := np_linalg_norm v2 in
    if Reqb norm_a 0 || Reqb norm_b 0 then Ok 0%R
    else np_divide dot_product (norm_a * norm_b).

End RecommendationEngine.

Import RecommendationEngine.

(** ** [profiles/views.py] *)

Module Views.

(** An entry of [recommendations]: [{'profile': ..., 'similarity': ...}]. *)
Record Recommendation : Type := { rec_profile : Profile; similarity : R }.

(** The sort key of the AI path,
    [(x['profile'].boost_expiry > timezone.now(), x['similarity'])].
    Every profile has the attribute [boost_expiry], so the [hasattr] guard
    always takes its first branch; comparing [None] with a datetime raises. *)
Definition sort_key (now : Z) (x : Recommendation) : result (bool * R) :=
  match boost_expiry (rec_profile x) with
  | Some expiry => Ok ((now <? expiry)%Z, similarity x)
  | None => Raise TypeError
  end.

(** [k1 < k2] on such tuples: the first differing position decides. *)
Definition key_lt (k1 k2 : bool * R) : bool :=
  if eqb k1.1 k2.1 then Rltb k1.2 k2.2 else negb k1.1 && k2.1.

(** [recommendations.sort(key=..., reverse=True)]: the keys are computed for
    every entry first, then the entries are stably sorted by decreasing key. *)
Definition sort_recommendations (now : Z) (recommendations : list Recommendation)
  : result (list Recommendation) :=
  keyed ← for_each (fun x => k ← sort_key now x; Ok (k, x)) recommendations;
  Ok (map snd (stable_sort (fun a b => key_lt b.1 a.1) keyed)).

(** The end of the AI path: sort, keep the first ten, project the profiles. *)
Definition top_recommendations (now : Z) (recommendations : list Recommendation)
  : result (list Profile) :=
  recommendations ← sort_recommendations now recommendations;
  Ok (map rec_profile (take 10 recommendations)).

Section ProfileRecommendations.

(** [haversine_distance] of views.py is trigonometry on floats, and
    [math.sqrt(1 - a)] raises [ValueError] when rounding takes [a] above 1;
    the endpoint is modelled for an arbitrary distance function that may
    raise.  [random_order] is the value that [order_by('?')] draws for a
    row. *)
Variable haversine_distance : Q → Q → Q → Q → result R.
Variable random_order : Z → Z.

Variable (db : DB) (now : Z) (today : date).

Definition is_blocked_with (user : User) (p : Profile) : bool :=
  existsb (fun b => ((blocked_user b =? profile_user p)%Z && (blocker b =? user_id user)%Z)
                    || ((blocker b =? profile_user p)%Z && (blocked_user b =? user_id user)%Z))
          (blocks db).

Definition born_between (lo hi : date) (p : Profile) : bool :=
  match date_of_birth p with
  | Some dob => date_leb lo dob && date_leb dob hi
  | None => false
  end.

(** [Profile.objects.filter(...).exclude(...)] *)
Definition hard_filter (user : User) (min_birth_date max_birth_date : date) : list Profile :=
  filter (fun p => is_active p && negb (is_hidden p)
                   && born_between min_birth_date max_birth_date p
                   && negb ((profile_user p =? user_id user)%Z || is_blocked_with user p)
                   = true)
         (profiles db).

(** The body of the distance loop, which runs over the profiles that have
    both coordinates. *)
Definition within_distance (lat lon : Q) (limit : Z) (p : Profile) : result bool :=
  match latitude p, longitude p with
  | Some plat, Some plon =>
      distance ← haversine_distance lat lon plat plon;
      Ok (Rleb distance (IZR limit))
  | _, _ => Ok false
  end.

Definition country_filter (user_profile : Profile) (base_queryset : list Profile)
  : list Profile :=
  if truthy_str (country user_profile) then
    filter (fun p => country p = country user_profile) base_queryset
  else base_queryset.

(** The location stage: radius around the effective coordinates, else the
    same country, else nothing. *)
Definition location_filter (user_profile : Profile) (base_queryset : list Profile)
  : result (list Profile) :=
  let '(effective_latitude, effective_longitude) :=
    if is_passport_enabled user_profile
    then (passport_latitude user_profile, passport_longitude user_profile)
    else (latitude user_profile, longitude user_profile) in
  match effective_latitude, effective_longitude with
  | Some lat, Some lon =>
      if truthy_float effective_latitude && truthy_float effective_longitude then
        within ← filter_each (within_distance lat lon (max_distance user_profile))
                             base_queryset;
        let profiles_within_distance := map profile_user within in
        Ok (filter (fun p => profile_user p ∈ profiles_within_distance) base_queryset)
      else Ok (country_filter user_profile base_queryset)
  | _, _ => Ok (country_filter user_profile base_queryset)
  end.

Definition swiped_user_ids (user : User) : list Z :=
  map swiped_user (filter (fun s => swiper s = user_id user) (swipes db)).

(** [.exclude(Q(user__in=swiped_user_ids))] *)
Definition exclude_swiped (user : User) (queryset : list Profile) : list Profile :=
  filter (fun p => profile_user p ∉ swiped_user_ids user) queryset.

(** [boost_expiry > now] as the database evaluates it ([boost_expiry__gt]):
    false on a null. *)
Definition is_boosted (p : Profile) : bool :=
  match boost_expiry p with
  | Some expiry => (now <? expiry)%Z
  | None => false
  end.

Definition common_interests (user_interests : list Z) (p : Profile) : nat :=
  length (filter (fun i => interest_id i ∈ user_interests) (interests p)).

(** [.order_by('-is_boosted', '-common_interests', '?')] *)
Definition interest_order (user_interests : list Z) (a b : Profile) : bool :=
  if negb (eqb (is_boosted a) (is_boosted b)) then is_boosted a
  else if negb (common_interests user_interests a =? common_interests user_interests b)%nat
       then (common_interests user_interests b <? common_interests user_interests a)%nat
       else (random_order (profile_user a) <? random_order (profile_user b))%Z.

(** Fetching the rows of a queryset annotated with
    [is_boosted=Case(When(boost_expiry__gt=..., then=Value(True)),
                     default=Value(False), output_field=BooleanField())].
    Line 12 of views.py imports the model class [Value] of
    [profiles/models.py] over the expression class [Value] that line 4
    imported from [django.db.models]; [Value(True)] is therefore a model
    instance, [Case] and [When] wrap it as a query parameter, and the database
    adapter cannot bind a model instance: the fetch raises, whatever the rows
    are. *)
Definition fetch_annotated (queryset : list Profile) : result (list Profile) :=
  Raise DbError.

(** The branch taken when the requester has no usable feature vector.  The
    querysets are lazy; the rows are fetched at the latest by
    [len(results)], on the slice [queryset[:10]], which carries the
    annotation in its select list and in its ordering. *)
Definition interest_based (user : User) (user_profile : Profile)
    (base_queryset : list Profile) : result (list Profile) :=
  let user_interests := map interest_id (interests user_profile) in
  let queryset :=
    stable_sort (interest_order user_interests) (exclude_swiped user base_queryset) in
  let queryset :=
    match queryset with
    | [] => stable_sort (interest_order user_interests) base_queryset
    | _ => queryset
    end in
  results ← fetch_annotated (take 10 queryset);
  Ok results.

(** The candidates of the AI path. *)
Definition candidate_profiles (user : User) (base_queryset : list Profile) : list Profile :=
  match exclude_swiped user base_queryset with
  | [] => base_queryset
  | candidates => candidates
  end.

(** The scoring loop: one entry per candidate. *)
Definition score_candidate (user_feature_vector : gmap string R) (candidate_profile : Profile)
  : result Recommendation :=
  match feature_vectors db !! profile_user candidate_profile with
  | Some candidate_feature_vector =>
      if bool_decide (candidate_feature_vector = ∅) then
        Ok {| rec_profile := candidate_profile; similarity := 0.5 |}
      else
        similarity ← calculate_similarity user_feature_vector candidate_feature_vector;
        Ok {| rec_profile := candidate_profile; similarity := similarity |}
  | None => Ok {| rec_profile := candidate_profile; similarity := 0.5 |}
  end.

Definition ai_powered (user : User) (user_feature_vector : gmap string R)
    (base_queryset : list Profile) : result (list Profile) :=
  recommendations ←
    for_each (score_candidate user_feature_vector) (candidate_profiles user base_queryset);
  top_recommendations now recommendations.

(** The endpoint; the response body is the list of serialised profiles. *)
Definition profile_recommendations (user : User) : result (list Profile) :=
  match profile user with
  | None => Ok []
  | Some user_profile =>
      min_birth_date ← replace_year today (year today - max_age user_profile);
      max_birth_date ← replace_year today (year today - min_age user_profile);
      let user_feature_vector := feature_vectors db !! user_id user in
      let base_queryset := hard_filter user min_birth_date max_birth_date in
      base_queryset ← location_filter user_profile base_queryset;
      match user_feature_vector with
      | Some fv =>
          if bool_decide (fv = ∅) then interest_based user user_profile base_queryset
          else ai_powered user fv base_queryset
      | None => interest_based user user_profile base_queryset
      end
  end.

End ProfileRecommendations.

End Views.

Import Views.

(** ** The specification's wording, as definitions to compare the code with *)

Module Spec.

(** Ranking as specified: descending by score, boosted status as the
    secondary descending key, then the first ten. *)
Definition spec_rank_before (now : Z) (a b : Recommendation) : bool :=
  let boosted x :=
    match boost_expiry (rec_profile x) with
    | Some expiry => (now <? expiry)%Z
    | None => false
    end in
  if Reqb (similarity a) (similarity b) then boosted a && negb (boosted b)
  else Rltb (similarity b) (similarity a).

Definition spec_ranking (now : Z) (recommendations : list Recommendation) : list Profile :=
  map rec_profile (take 10 (stable_sort (spec_rank_before now) recommendations)).

(** The verification flags named by [TRUST_LEVELS].  The source takes a
    primary photo for photo verification, and stores no flag for identity
    verification or behavioural trust. *)
Definition requirement_holds (user : User) (req : string) : bool :=
  if bool_decide (req = "email_verified") then is_verified user
  else if bool_decide (req = "photo_verified") then
    match profile user with
    | Some p => has_primary_photo p
    | None => false
    end
  else false.

Definition level_achieved (user : User) (level : Z) : bool :=
  match TRUST_LEVELS level with
  | Some t => forallb (requirement_holds user) (requirements t)
  | None => false
  end.

(** Trust level as specified: levels are climbed in order from 0, stopping
    below the first level whose prerequisites do not all hold. *)
Fixpoint climb (user : User) (level : Z) (steps : nat) : Z :=
  match steps with
  | O => level
  | S n => if level_achieved user (level + 1) then climb user (level + 1) n else level
  end.

Definition spec_trust_level (user : User) : Z := climb user 0 4.

(** Reply latencies as specified: in one conversation, in chronological
    order, every message of the other party that follows a message of the
    user records the minutes elapsed since the user's previous message,
    capped at 1440. *)
Fixpoint spec_walk_messages (user : User) (user_prev : option Z) (msgs : list Message)
  : list Q :=
  match msgs with
  | [] => []
  | msg :: rest =>
      if (sender msg =? user_id user)%Z then
        spec_walk_messages user (Some (created_at msg)) rest
      else
        match user_prev with
        | Some t => [Qmin (ofZ (created_at msg - t) / 60) 1440]
        | None => []
        end ++ spec_walk_messages user user_prev rest
  end.

Definition spec_reply_latencies (db : DB) (user : User) : list Q :=
  concat (map (fun conv =>
                 spec_walk_messages user None
                   (stable_sort (fun a b => (created_at a <? created_at b)%Z)
                                (conversation_messages db conv)))
              (user_conversations db user)).

Definition spec_reply_latency_avg (db : DB) (user : User) : Q :=
  match spec_reply_latencies db user with
  | [] => 300%Q
  | l => (sumQ l / ofnat (length l))%Q
  end.

(** Cosine similarity as specified: both vectors restricted to the keys
    they share, listed in one common order. *)
Definition shared_keys (vector1 vector2 : gmap string R) : list string :=
  stable_sort String.ltb (elements (dom vector1 ∩ dom vector2 : gset string)).

Definition restricted (vector : gmap string R) (keys : list string) : list R :=
  map (fun k => default 0%R (vector !! k)) keys.

Definition all_zero (vector : gmap string R) (keys : gset string) : Prop :=
  ∀ k, k ∈ keys → vector !! k = Some 0%R.

Definition spec_cosine (a b : list R) : R :=
  (foldr Rplus 0 (zip_with Rmult a b)
   / (sqrt (foldr Rplus 0 (map (fun x => x * x) a))
      * sqrt (foldr Rplus 0 (map (fun x => x * x) b))))%R.

(** The two counts of the engagement score: swipes of the last 30 days
    restricted to likes, as specified, and of any action. *)
Definition recent_swipes (db : DB) (user : User) (now : Z) : nat :=
  length (filter (fun s => swiper s = user_id user
                           ∧ (now - 30 * 86400 <= swipe_created_at s)%Z)
                 (swipes db)).

Definition recent_likes_only (db : DB) (user : User) (now : Z) : nat :=
  length (filter (fun s => swiper s = user_id user
                           ∧ action s = "like"
                           ∧ (now - 30 * 86400 <= swipe_created_at s)%Z)
                 (swipes db)).

Definition recent_messages (db : DB) (user : User) (now : Z) : nat :=
  length (filter (fun m => sender m = user_id user
                           ∧ (now - 30 * 86400 <= created_at m)%Z)
                 (messages db)).

(** The profile-completion fraction; the guard [if self.profile] of the
    method adds nothing when the attribute is empty. *)
Definition completion_fraction (user : User) : Q :=
  match profile user with
  | Some p => (ofZ (calculate_completion_score user p) / 100)%Q
  | None => 0%Q
  end.

Definition engagement_formula (activity_count : nat) (user : User) : Q :=
  (0.7 * Qmin (ofnat activity_count / 50) 1 + 0.3 * completion_fraction user)%Q.

Definition spec_engagement_score (db : DB) (user : User) (now : Z) : Q :=
  engagement_formula (recent_likes_only db user now + recent_messages db user now) user.

(** Two outcomes of the matcher agree: both return, with equal scores, or both
    raise the same exception. *)
Definition same_score (r1 r2 : result (Q * list string)) : Prop :=
  match r1, r2 with
  | Ok (score1, _), Ok (score2, _) => (score1 == score2)%Q
  | Raise e1, Raise e2 => e1 = e2
  | _, _ => False
  end.

End Spec.

Import Spec.

(** ** Concrete inputs *)

Module Scenarios.

Definition bare_profile (uid : Z) : Profile :=
  {| profile_user := uid; bio := ""; date_of_birth := Some (Date 1995 6 15);
     gender := "Female"; looking_for := "Friendship"; relationship_status := "Single";
     location := ""; country := ""; latitude := None; longitude := None;
     max_distance := 50; min_age := 18; max_age := 100;
     is_active := true; is_hidden := false; boost_expiry := None;
     passport_latitude := None; passport_longitude := None; is_passport_enabled := false;
     values := Some []; photos := []; interests := [] |}.

Definition with_boost (expiry : Z) (p : Profile) : Profile :=
  {| profile_user := profile_user p; bio := bio p; date_of_birth := date_of_birth p;
     gender := gender p; looking_for := looking_for p;
     relationship_status := relationship_status p;
     location := location p; country := country p;
     latitude := latitude p; longitude := longitude p;
     max_distance := max_distance p; min_age := min_age p; max_age := max_age p;
     is_active := is_active p; is_hidden := is_hidden p; boost_expiry := Some expiry;
     passport_latitude := passport_latitude p; passport_longitude := passport_longitude p;
     is_passport_enabled := is_passport_enabled p;
     values := values p; photos := photos p; interests := interests p |}.

Definition with_photo (p : Profile) : Profile :=
  {| profile_user := profile_user p; bio := bio p; date_of_birth := date_of_birth p;
     gender := gender p; looking_for := looking_for p;
     relationship_status := relationship_status p;
     location := location p; country := country p;
     latitude := latitude p; longitude := longitude p;
     max_distance := max_distance p; min_age := min_age p; max_age := max_age p;
     is_active := is_active p; is_hidden := is_hidden p; boost_expiry := boost_expiry p;
     passport_latitude := passport_latitude p; passport_longitude := passport_longitude p;
     is_passport_enabled := is_passport_enabled p;
     values := values p; photos := [{| is_primary := true |}]; interests := interests p |}.

Definition mk_user (uid : Z) (verified : bool) (p : option Profile) : User :=
  {| user_id := uid; email := "u@example.org"; is_verified := verified; profile := p |}.

Definition empty_db : DB :=
  {| profiles := []; swipes := []; matches := []; conversations := [];
     messages := []; blocks := []; feature_vectors := ∅ |}.

(** The clock of the scenarios: 1 June 2024, 12:00 UTC. *)
Definition now0 : Z := 1717243200.
Definition today0 : date := Date 2024 6 1.

(** Three scored candidates: scores 0.9, 0.4, 0.4; only the second one is
    boosted (the boosts of the others ran out an hour ago). *)
Definition cand_a : Profile := with_boost (now0 - 3600) (bare_profile 11).
Definition cand_b : Profile := with_boost (now0 + 3600) (bare_profile 12).
Definition cand_c : Profile := with_boost (now0 - 3600) (bare_profile 13).

Definition scored_pool : list Recommendation :=
  [ {| rec_profile := cand_a; similarity := 0.9 |};
    {| rec_profile := cand_b; similarity := 0.4 |};
    {| rec_profile := cand_c; similarity := 0.4 |} ].

(** A user who never verified the e-mail address but has a primary photo. *)
Definition photo_only_user : User := mk_user 1 false (Some (with_photo (bare_profile 1))).

(** A verified user with a primary photo. *)
Definition verified_photo_user : User := mk_user 1 true (Some (with_photo (bare_profile 1))).

(** User 1 is matched with user 2, who wrote twice, ten minutes apart; user 1
    never wrote. *)
Definition quiet_user : User := mk_user 1 true (Some (bare_profile 1)).

Definition one_sided_chat : DB :=
  {| profiles := []; swipes := [];
     matches := [ {| match_id := 1; user1 := 1; user2 := 2; match_is_active := true |} ];
     conversations := [ {| conversation_id := 1; conversation_match := 1 |} ];
     messages := [ {| message_conversation := 1; sender := 2; created_at := now0 - 600 |};
                   {| message_conversation := 1; sender := 2; created_at := now0 |} ];
     blocks := []; feature_vectors := ∅ |}.

(** User 1 passed on one profile yesterday and did nothing else. *)
Definition one_pass : DB :=
  {| profiles := [];
     swipes := [ {| swiper := 1; swiped_user := 2; action := "pass";
                    swipe_created_at := now0 - 86400 |} ];
     matches := []; conversations := []; messages := []; blocks := [];
     feature_vectors := ∅ |}.

(** The requester has a stored feature vector; the only candidate has none
    and never bought a boost. *)
Definition requester : User := mk_user 1 true (Some (bare_profile 1)).

Definition unboosted_pool : DB :=
  {| profiles := [ bare_profile 1; bare_profile 2 ];
     swipes := []; matches := []; conversations := []; messages := []; blocks := [];
     feature_vectors := {[ 1%Z := {[ "feature_0" := 1%R ]} ]} |}.

(** The same pool after the candidate's boost ran out. *)
Definition lapsed_pool : DB :=
  {| profiles := [ bare_profile 1; with_boost (now0 - 3600) (bare_profile 2) ];
     swipes := []; matches := []; conversations := []; messages := []; blocks := [];
     feature_vectors := {[ 1%Z := {[ "feature_0" := 1%R ]} ]} |}.

End Scenarios.

Import Scenarios.


(** ** [profiles/views.py], further endpoints *)

Module Accounts.

(** A [Boost] row. *)
Record Boost : Type := {
  boost_id : Z;
  boost_name : string;
  cost : Z;
  duration_days : Z
}.

(** The profile of the requester with the two fields of [Profile] that only
    the endpoints below touch. *)
Record Account : Type := {
  account_profile : Profile;
  virtual_currency : Z;
  last_login_reward_date : option date
}.

Inductive Status : Type := HTTP_200_OK | HTTP_400_BAD_REQUEST | HTTP_404_NOT_FOUND.

(** [user_profile.boost_expiry = ...] *)
Definition set_boost_expiry (expiry : option Z) (p : Profile) : Profile :=
  {| profile_user := profile_user p; bio := bio p; date_of_birth := date_of_birth p;
     gender := gender p; looking_for := looking_for p;
     relationship_status := relationship_status p;
     location := location p; country := country p;
     latitude := latitude p; longitude := longitude p;
     max_distance := max_distance p; min_age := min_age p; max_age := max_age p;
     is_active := is_active p; is_hidden := is_hidden p; boost_expiry := expiry;
     passport_latitude := passport_latitude p; passport_longitude := passport_longitude p;
     is_passport_enabled := is_passport_enabled p;
     values := values p; photos := photos p; interests := interests p |}.

(** [Boost.objects.get(id=boost_id)]; [None] is [Boost.DoesNotExist]. *)
Definition get_boost (boosts : list Boost) (id : option Z) : option Boost :=
  match id with
  | Some i => List.find (fun b => (boost_id b =? i)%Z) boosts
  | None => None
  end.

(** [activate_boost]: the stored account after the request, and the status. *)
Definition activate_boost (boosts : list Boost) (now : Z) (id : option Z) (acc : Account)
  : Account * Status :=
  match get_boost boosts id with
  | None => (acc, HTTP_404_NOT_FOUND)
  | Some boost =>
      if (virtual_currency acc <? cost boost)%Z then (acc, HTTP_400_BAD_REQUEST)
      else
        ({| account_profile :=
              set_boost_expiry (Some (now + duration_days boost * 86400)%Z)
                               (account_profile acc);
            virtual_currency := (virtual_currency acc - cost boost)%Z;
            last_login_reward_date := last_login_reward_date acc |},
         HTTP_200_OK)
  end.

(** [a == b] on dates, and on a nullable date field against a date. *)
Definition date_eqb (a b : date) : bool :=
  (year a =? year b)%Z && (month a =? month b)%Z && (day a =? day b)%Z.

Definition field_is_date (field : option date) (d : date) : bool :=
  match field with
  | Some d' => date_eqb d' d
  | None => false
  end.

(** [daily_login_reward] *)
Definition daily_login_reward (today : date) (acc : Account) : Account * Status :=
  if negb (field_is_date (last_login_reward_date acc) today) then
    ({| account_profile := account_profile acc;
        virtual_currency := (virtual_currency acc + 10)%Z;
        last_login_reward_date := Some today |},
     HTTP_200_OK)
  else (acc, HTTP_400_BAD_REQUEST).

(** [get_profile_completion]: the percentage it stores and returns.  The
    photo and interest checks count towards the total only when they pass. *)
Definition get_profile_completion (user_profile : Profile) : Z :=
  let fields_to_check :=
    [ truthy_str (bio user_profile); truthy_obj (date_of_birth user_profile);
      truthy_str (gender user_profile); truthy_str (looking_for user_profile);
      truthy_str (location user_profile); truthy_float (latitude user_profile);
      truthy_float (longitude user_profile) ] in
  let '(score, total_fields) :=
    foldl (fun '(score, total_fields) (field : bool) =>
             let total_fields := (total_fields + 1)%Z in
             if field then ((score + 1)%Z, total_fields) else (score, total_fields))
          (0%Z, 0%Z) fields_to_check in
  let '(score, total_fields) :=
    if negb (bool_decide (photos user_profile = []))
    then ((score + 1)%Z, (total_fields + 1)%Z) else (score, total_fields) in
  let '(score, total_fields) :=
    if negb (bool_decide (interests user_profile = []))
    then ((score + 1)%Z, (total_fields + 1)%Z) else (score, total_fields) in
  let completion_percentage :=
    if (0 <? total_fields)%Z then ((ofZ score / ofZ total_fields) * 100)%Q else 0%Q in
  Qfloor completion_percentage.

End Accounts.

Import Accounts.

(** ** Further concrete inputs *)

Module MoreScenarios.

Definition vector_of (interests values : list string) : FeatureVector :=
  {| demographics := {| age := 30; demo_gender := "Female" |};
     preferences := {| age_range := (25, 35)%Z; distance_km := 50 |};
     fv_interests := interests;
     fv_values := map ItemStr values;
     behavioral_signals :=
       {| reply_latency_avg := 300; chat_depth_score := 0; unmatch_rate := 0;
          total_likes := 0; total_passes := 0; total_matches := 0; like_rate := 0 |};
     trust_score := 0.5;
     engagement_score := 0 |}.

Definition rich_account : Account :=
  {| account_profile := bare_profile 1; virtual_currency := 25;
     last_login_reward_date := None |}.

Definition boost_catalogue : list Boost :=
  [ {| boost_id := 1; boost_name := "Day"; cost := 10; duration_days := 1 |};
    {| boost_id := 2; boost_name := "Week"; cost := 50; duration_days := 7 |} ].

Definition with_coordinates (lat lon : Q) (p : Profile) : Profile :=
  {| profile_user := profile_user p; bio := bio p; date_of_birth := date_of_birth p;
     gender := gender p; looking_for := looking_for p;
     relationship_status := relationship_status p;
     location := location p; country := country p;
     latitude := Some lat; longitude := Some lon;
     max_distance := max_distance p; min_age := min_age p; max_age := max_age p;
     is_active := is_active p; is_hidden := is_hidden p; boost_expiry := boost_expiry p;
     passport_latitude := passport_latitude p; passport_longitude := passport_longitude p;
     is_passport_enabled := is_passport_enabled p;
     values := values p; photos := photos p; interests := interests p |}.

Definition with_values (items : list ValueItem) (p : Profile) : Profile :=
  {| profile_user := profile_user p; bio := bio p; date_of_birth := date_of_birth p;
     gender := gender p; looking_for := looking_for p;
     relationship_status := relationship_status p;
     location := location p; country := country p;
     latitude := latitude p; longitude := longitude p;
     max_distance := max_distance p; min_age := min_age p; max_age := max_age p;
     is_active := is_active p; is_hidden := is_hidden p; boost_expiry := boost_expiry p;
     passport_latitude := passport_latitude p; passport_longitude := passport_longitude p;
     is_passport_enabled := is_passport_enabled p;
     values := Some items; photos := photos p; interests := interests p |}.

(** [str.lower] on strings of ASCII letters, as the scenarios have them. *)
Definition ascii_lower_char (c : ascii) : ascii :=
  let n := nat_of_ascii c in
  if (65 <=? n)%nat && (n <=? 90)%nat then ascii_of_nat (n + 32) else c.

Fixpoint ascii_lower (s : string) : string :=
  match s with
  | EmptyString => EmptyString
  | String c s' => String (ascii_lower_char c) (ascii_lower s')
  end.

(** A registered user for whom no [Profile] row was created. *)
Definition profileless_user (uid : Z) : User := mk_user uid true None.

(** Two users with a profile; the second one stored a value as an object. *)
Definition plain_user (uid : Z) : User :=
  mk_user uid true (Some (with_values [ItemStr "honesty"] (bare_profile uid))).

Definition object_valued_user (uid : Z) : User :=
  mk_user uid true (Some (with_values [ItemDict] (bare_profile uid))).

(** A distance function for the scenarios: everything is at distance 0. *)
Definition no_distance (lat1 lon1 lat2 lon2 : Q) : result R := Ok 0%R.

(** Two profiles at the same place (48.85 N, 2.35 E). *)
Definition parisian (uid : Z) : Profile := with_coordinates 48.85 2.35 (bare_profile uid).

(** A pool in which user 1 already swiped on user 2 but not on user 3; both
    candidates once bought a boost. *)
Definition half_swiped_pool : DB :=
  {| profiles := [ bare_profile 1;
                   with_boost (now0 - 3600) (bare_profile 2);
                   with_boost (now0 + 3600) (bare_profile 3) ];
     swipes := [ {| swiper := 1; swiped_user := 2; action := "like";
                    swipe_created_at := now0 - 86400 |} ];
     matches := []; conversations := []; messages := []; blocks := [];
     feature_vectors := {[ 1%Z := {[ "feature_0" := 1%R ]} ]} |}.

End MoreScenarios.

Import MoreScenarios.

(** * Properties *)

(** ** Trust tiers *)

Section TrustLevels.

(** With a profile the assessment returns, and returns 0, 1 or 2. *)
Lemma assess_trust_level_cases (user : User) (p : Profile) :
  profile user = Some p →
  assess_trust_level user = Ok 0%Z
  ∨ assess_trust_level user = Ok 1%Z
  ∨ assess_trust_level user = Ok 2%Z.
Proof.
  intros Hp. unfold assess_trust_level. rewrite Hp.
  destruct (is_verified user), (has_primary_photo p); vm_compute; auto.
Qed.

(** Without a profile it raises, whatever the flags. *)
Lemma assess_trust_level_no_profile (user : User) :
  profile user = None → assess_trust_level user = Raise RelatedObjectDoesNotExist.
Proof. intros Hp. unfold assess_trust_level. rewrite Hp. reflexivity. Qed.

Lemma can_access_feature_no_profile (user : User) (feature : string) :
  profile user = None → can_access_feature user feature = Raise RelatedObjectDoesNotExist.
Proof.
  intros Hp. unfold can_access_feature.
  rewrite (assess_trust_level_no_profile user Hp). reflexivity.
Qed.

(** Outside the photo-without-e-mail case the code and the ordered climb of
    the specification agree. *)
Lemma assess_trust_level_verified (user : User) (p : Profile) :
  profile user = Some p →
  is_verified user = true → assess_trust_level user = Ok (spec_trust_level user).
Proof.
  intros Hp Hv. unfold assess_trust_level, spec_trust_level, climb, level_achieved.
  cbn. unfold requirement_holds. cbn. rewrite Hv, Hp.
  destruct (has_primary_photo p); reflexivity.
Qed.

Lemma assess_trust_level_no_photo (user : User) (p : Profile) :
  profile user = Some p → has_primary_photo p = false →
  assess_trust_level user = Ok (spec_trust_level user).
Proof.
  intros Hp Hphoto. unfold assess_trust_level, spec_trust_level, climb, level_achieved.
  cbn. unfold requirement_holds. cbn. rewrite Hp, Hphoto.
  destruct (is_verified user); reflexivity.
Qed.

(** No user with a profile is assessed above level 2, so the capabilities
    that start at levels 3 and 4 are granted to none of them. *)
Lemma trust_level_with_profile (user : User) (p : Profile) :
  profile user = Some p →
  ∃ level, assess_trust_level user = Ok level
           ∧ (0 <= level <= 2)%Z
           ∧ can_access_feature user "boost_priority" = Ok false
           ∧ can_access_feature user "featured" = Ok false.
Proof.
  intros Hp. unfold can_access_feature.
  destruct (assess_trust_level_cases user p Hp) as [-> | [-> | ->]];
    eexists; (split; [reflexivity|]); repeat split; try reflexivity; lia.
Qed.

End TrustLevels.

(** C2.  The assessed level is not the highest level whose prerequisites all
    hold: a user whose e-mail address is not verified and who has a primary
    photo is assessed at level 2, although "email_verified", which
    [TRUST_LEVELS] requires from level 1 on, does not hold; climbing the
    levels in order leaves this user at level 0. *)
Theorem photo_alone_reaches_level_two :
  assess_trust_level photo_only_user = Ok 2%Z
  ∧ level_achieved photo_only_user 1 = false
  ∧ level_achieved photo_only_user 2 = false
  ∧ spec_trust_level photo_only_user = 0%Z.
Proof. repeat split; reflexivity. Qed.

(** C9.  For a user without [Profile] row neither call returns:
    [user.profile], which the photo check evaluates before anything else,
    raises [RelatedObjectDoesNotExist], although the check is written as a
    guard ([if user.profile and ...]); so the level is not assessed, and
    [can_access_feature] does not answer false for "boost_priority" and
    "featured".  A verified user with a profile and a primary photo, by
    contrast, is assessed at level 2 and refused both. *)
Theorem profileless_user_is_not_assessed :
  assess_trust_level (profileless_user 1) = Raise RelatedObjectDoesNotExist
  ∧ can_access_feature (profileless_user 1) "boost_priority" = Raise RelatedObjectDoesNotExist
  ∧ can_access_feature (profileless_user 1) "featured" = Raise RelatedObjectDoesNotExist
  ∧ assess_trust_level verified_photo_user = Ok 2%Z
  ∧ can_access_feature verified_photo_user "boost_priority" = Ok false
  ∧ can_access_feature verified_photo_user "featured" = Ok false.
Proof. repeat split; reflexivity. Qed.

(** ** Reply latency *)

Section ReplyLatency.

Variables (db : DB) (user : User).

Lemma walk_messages_capped (msgs : list Message) (prev_time : option Z) :
  Forall (fun x => (x <= 1440)%Q) (walk_messages user prev_time msgs).
Proof.
  revert prev_time. induction msgs as [|msg rest IH]; intros prev_time; cbn.
  - constructor.
  - destruct (negb (sender msg =? user_id user)%Z); [|apply IH].
    apply Forall_app. split; [|apply IH].
    destruct prev_time; repeat constructor. apply Q.le_min_r.
Qed.

(** Every recorded observation is capped at 24 hours. *)
Lemma reply_latencies_capped :
  Forall (fun x => (x <= 1440)%Q) (_calculate_reply_latencies db user).
Proof.
  unfold _calculate_reply_latencies.
  induction (user_conversations db user) as [|conv convs IH]; cbn.
  - constructor.
  - apply Forall_app. split; [apply walk_messages_capped | exact IH].
Qed.

(** The messages the user sent play no part in the walk. *)
Lemma walk_messages_skips_own (msgs : list Message) (prev_time : option Z) :
  walk_messages user prev_time msgs
  = walk_messages user prev_time
      (filter (fun m => sender m ≠ user_id user) msgs).
Proof.
  revert prev_time. induction msgs as [|msg rest IH]; intros prev_time; [reflexivity|].
  cbn [walk_messages]. rewrite filter_cons.
  destruct (Z.eqb_spec (sender msg) (user_id user)) as [Heq|Hne]; cbn [negb].
  - rewrite decide_False by (intros H; apply H; exact Heq). apply IH.
  - rewrite decide_True by exact Hne. cbn [walk_messages].
    destruct (Z.eqb_spec (sender msg) (user_id user)); [contradiction|].
    cbn [negb]. f_equal. apply IH.
Qed.

End ReplyLatency.

(** C3.  The recorded gaps are not measured from the user's previous
    message: with two messages of the other party ten minutes apart and none
    of the user, the code records one observation of 10 minutes and reports
    the average 10, where the walk of the specification records nothing and
    yields the default 300. *)
Theorem reply_latency_between_others_messages :
  _calculate_reply_latencies one_sided_chat quiet_user = [(600 # 60)%Q]
  ∧ (reply_latency_avg (_get_behavioral_signals one_sided_chat quiet_user) == 10)%Q
  ∧ spec_reply_latencies one_sided_chat quiet_user = []
  ∧ spec_reply_latency_avg one_sided_chat quiet_user = 300%Q.
Proof. repeat split; reflexivity. Qed.

(** ** Ranking of scored candidates *)

(** Decide the float comparisons of a closed goal. *)
Ltac decide_floats :=
  unfold Rltb, Rleb, Reqb;
  repeat match goal with
    | |- context [Rlt_dec ?a ?b] => destruct (Rlt_dec a b); [try lra | try lra]
    | |- context [Rle_dec ?a ?b] => destruct (Rle_dec a b); [try lra | try lra]
    | |- context [Req_dec_T ?a ?b] => destruct (Req_dec_T a b); [try lra | try lra]
    end.

(** C1.  On the pool with scores 0.9, 0.4, 0.4 of which only the second
    candidate is boosted, the endpoint's ranking puts the boosted candidate
    first: boosted status is the primary key of the sort and the score the
    secondary one.  The ranking of the specification, by score and then by
    boosted status, keeps the 0.9 candidate first. *)
Theorem boosted_candidate_ranked_first :
  top_recommendations now0 scored_pool = Ok [cand_b; cand_a; cand_c]
  ∧ spec_ranking now0 scored_pool = [cand_a; cand_b; cand_c].
Proof.
  split.
  - cbv -[Rlt_dec Req_dec_T IZR Rdiv]. decide_floats; reflexivity.
  - cbv -[Rlt_dec Req_dec_T IZR Rdiv]. decide_floats; reflexivity.
Qed.

(** ** Candidate selection and missing data *)

Section CandidateSelection.

Variable haversine_distance : Q → Q → Q → Q → result R.
Variable random_order : Z → Z.
Variables (db : DB) (now : Z) (today : date) (user : User).

(** Without a profile the endpoint answers the empty list. *)
Lemma profile_recommendations_no_profile :
  profile user = None →
  profile_recommendations haversine_distance random_order db now today user = Ok [].
Proof. intros H. unfold profile_recommendations. rewrite H. reflexivity. Qed.

(** While an unswiped candidate exists, swiped users are left out. *)
Lemma candidate_profiles_new_only (base_queryset : list Profile) :
  exclude_swiped db user base_queryset ≠ [] →
  candidate_profiles db user base_queryset = exclude_swiped db user base_queryset
  ∧ ∀ p, p ∈ candidate_profiles db user base_queryset →
         profile_user p ∉ swiped_user_ids db user.
Proof.
  intros Hne. unfold candidate_profiles.
  destruct (exclude_swiped db user base_queryset) as [|c cs] eqn:E; [contradiction|].
  split; [reflexivity|]. intros p Hp. rewrite <- E in Hp.
  unfold exclude_swiped in Hp. apply list_elem_of_filter in Hp. tauto.
Qed.

(** When every candidate was swiped, the whole filtered pool is used. *)
Lemma candidate_profiles_fallback (base_queryset : list Profile) :
  exclude_swiped db user base_queryset = [] →
  candidate_profiles db user base_queryset = base_queryset.
Proof. intros E. unfold candidate_profiles. rewrite E. reflexivity. Qed.

(** Neither stage brings back the requester or a blocked user. *)
Lemma hard_filter_not_blocked (lo hi : date) (p : Profile) :
  p ∈ hard_filter db user lo hi →
  profile_user p ≠ user_id user ∧ is_blocked_with db user p = false.
Proof.
  unfold hard_filter. intros Hp. apply list_elem_of_filter in Hp as [Hc _].
  apply andb_prop in Hc as [_ Hc]. apply negb_true_iff in Hc.
  apply orb_false_elim in Hc as [Hself Hblock].
  split; [|exact Hblock]. apply Z.eqb_neq. exact Hself.
Qed.

(** On 29 February the birth-date bounds cannot be built for an age limit
    that leads to a common year, whatever else the request holds. *)
Lemma replace_year_leap_day :
  replace_year (Date 2024 2 29) (2024 - 18) = Raise ValueError.
Proof. reflexivity. Qed.

(** An empty pool gives the empty list in the AI path. *)
Lemma ai_powered_empty_pool (user_feature_vector : gmap string R) :
  ai_powered db now user user_feature_vector [] = Ok [].
Proof. reflexivity. Qed.

(** The interest-based branch does not get as far as a list. *)
Lemma interest_based_raises (user_profile : Profile) (base_queryset : list Profile) :
  interest_based random_order db now user user_profile base_queryset = Raise DbError.
Proof. reflexivity. Qed.

End CandidateSelection.

(** C7.  The endpoint does raise on missing data: the requester has a stored
    feature vector, the only candidate has none and its [boost_expiry] is
    null; the candidate is scored 0.5 and the sort key then compares [None]
    with the current time. *)
Theorem never_boosted_candidate_raises
    (haversine_distance : Q → Q → Q → Q → result R) (random_order : Z → Z) :
  profile_recommendations haversine_distance random_order
    unboosted_pool now0 today0 requester = Raise TypeError.
Proof. vm_compute. reflexivity. Qed.

(** ** Engagement score *)

Section Engagement.

Lemma calculate_completion_score_bounds (u : User) (p : Profile) :
  (0 <= calculate_completion_score u p <= 100)%Z.
Proof.
  unfold calculate_completion_score.
  repeat match goal with
    | |- context [if ?b then _ else _] => destruct b
    end; vm_compute; split; discriminate.
Qed.

Lemma completion_fraction_bounds (u : User) :
  (0 <= completion_fraction u <= 1)%Q.
Proof.
  unfold completion_fraction. destruct (profile u) as [p|]; [|split; discriminate].
  pose proof (calculate_completion_score_bounds u p) as [Hlo Hhi].
  unfold ofZ. split.
  - apply Qle_shift_div_l; [reflexivity|].
    rewrite Qmult_0_l. change 0%Q with (inject_Z 0). rewrite <- Zle_Qle. exact Hlo.
  - apply Qle_shift_div_r; [reflexivity|].
    rewrite Qmult_1_l. change 100%Q with (inject_Z 100). rewrite <- Zle_Qle. exact Hhi.
Qed.

Lemma activity_score_bounds (n : nat) :
  (0 <= Qmin (ofnat n / 50) 1 <= 1)%Q.
Proof.
  split; [|apply Q.le_min_r].
  apply Q.min_glb; [|discriminate].
  apply Qle_shift_div_l; [reflexivity|]. rewrite Qmult_0_l.
  unfold ofnat. change 0%Q with (inject_Z 0). rewrite <- Zle_Qle. lia.
Qed.

End Engagement.

(** C8, as stated, fails: a pass made yesterday counts as activity, so the
    score differs from the one computed from likes and messages only. *)
Lemma engagement_counts_every_swipe :
  ¬ (_calculate_engagement_score one_pass quiet_user now0
     == spec_engagement_score one_pass quiet_user now0)%Q.
Proof. vm_compute. discriminate. Qed.

(** C8, amended.  The engagement score is 0.7 times the normalised 30-day
    activity count, where the count is the number of swipes of any action
    plus the number of messages sent in the last 30 days, capped at 50 and
    scaled to [0,1], plus 0.3 times the profile-completion fraction; it lies
    in [0,1]. *)
Theorem engagement_score_weighted_sum (db : DB) (user : User) (now : Z) :
  (_calculate_engagement_score db user now
   == engagement_formula (recent_swipes db user now + recent_messages db user now) user)%Q
  ∧ (0 <= _calculate_engagement_score db user now <= 1)%Q.
Proof.
  unfold _calculate_engagement_score, engagement_formula.
  fold (recent_swipes db user now). fold (recent_messages db user now).
  pose proof (activity_score_bounds (recent_swipes db user now + recent_messages db user now))
    as [Ha0 Ha1].
  pose proof (completion_fraction_bounds user) as [Hc0 Hc1].
  unfold completion_fraction in *.
  set (a := Qmin _ 1) in *. clearbody a.
  destruct (profile user) as [p|].
  - set (c := (ofZ (calculate_completion_score user p) / 100)%Q) in *.
    assert (Hs : (0 + a * 0.7 + c * 0.3 <= 1)%Q) by Lqa.lra.
    rewrite (Q.min_l _ _ Hs). split; Lqa.lra.
  - assert (Hs : (0 + a * 0.7 <= 1)%Q) by Lqa.lra.
    rewrite (Q.min_l _ _ Hs). split; Lqa.lra.
Qed.

(** ** Match score *)

Section MatchScore.

Lemma ratio_bounds (a b : nat) :
  (a <= b)%nat → (0 <= ofnat a / ofnat b <= 1)%Q.
Proof.
  intros Hab. unfold ofnat. destruct b as [|b].
  - assert (a = 0%nat) as -> by lia. split; vm_compute; discriminate.
  - assert (Hpos : (0 < inject_Z (Z.of_nat (S b)))%Q).
    { change 0%Q with (inject_Z 0). rewrite <- Zlt_Qlt. lia. }
    split.
    + apply Qle_shift_div_l; [exact Hpos|]. rewrite Qmult_0_l.
      change 0%Q with (inject_Z 0). rewrite <- Zle_Qle. lia.
    + apply Qle_shift_div_r; [exact Hpos|]. rewrite Qmult_1_l.
      rewrite <- Zle_Qle. lia.
Qed.

Lemma preference_alignment_bounds (v1 v2 : FeatureVector) :
  (0 <= (_calculate_preference_alignment v1 v2).1 <= 1)%Q.
Proof.
  unfold _calculate_preference_alignment.
  repeat match goal with
    | |- context [if ?b then _ else _] => destruct b
    end; vm_compute; split; discriminate.
Qed.

Lemma interest_similarity_bounds (v1 v2 : FeatureVector) :
  (0 <= (_calculate_interest_similarity v1 v2).1 <= 1)%Q.
Proof.
  unfold _calculate_interest_similarity.
  destruct (_ || _); [vm_compute; split; discriminate|]. cbn [fst].
  destruct (set_is_empty (_ ∪ _)); [split; discriminate|].
  apply ratio_bounds, subseteq_size.
  etrans; [apply intersection_subseteq_l | apply union_subseteq_l].
Qed.

(** [set(values)] returns exactly when every item is a string; otherwise it
    raises [TypeError]. *)
Lemma hash_items_cases (l : list ValueItem) :
  (forallb is_str l = true ∧ ∃ items, for_each hash_item l = Ok items)
  ∨ (forallb is_str l = false ∧ for_each hash_item l = Raise TypeError).
Proof.
  induction l as [|i l IH]; [left; split; [reflexivity|by eexists]|].
  destruct i as [s|]; [|right; split; reflexivity].
  cbn [forallb is_str andb for_each hash_item mbind result_bind].
  destruct IH as [[Hl [items ->]] | [Hl ->]].
  - left. split; [exact Hl|]. by eexists.
  - right. split; [exact Hl|reflexivity].
Qed.

Lemma set_of_items_cases (l : list ValueItem) :
  (forallb is_str l = true ∧ ∃ values, set_of_items l = Ok values)
  ∨ (forallb is_str l = false ∧ set_of_items l = Raise TypeError).
Proof.
  unfold set_of_items.
  destruct (hash_items_cases l) as [[Hl [items ->]] | [Hl ->]].
  - left. split; [exact Hl|]. by eexists.
  - right. split; [exact Hl|reflexivity].
Qed.

Lemma values_compatibility_returns (v1 v2 : FeatureVector) :
  forallb is_str (fv_values v1) = true → forallb is_str (fv_values v2) = true →
  ∃ values_result, _calculate_values_compatibility v1 v2 = Ok values_result.
Proof.
  intros H1 H2. unfold _calculate_values_compatibility.
  destruct (set_of_items_cases (fv_values v1)) as [[_ [values1 ->]] | [H _]];
    [|congruence].
  destruct (set_of_items_cases (fv_values v2)) as [[_ [values2 ->]] | [H _]];
    [|congruence].
  cbn [mbind result_bind]. destruct (_ || _); by eexists.
Qed.

Lemma values_compatibility_bounds (v1 v2 : FeatureVector) (values_result : Q * list string) :
  _calculate_values_compatibility v1 v2 = Ok values_result →
  (0 <= values_result.1 <= 1)%Q.
Proof.
  unfold _calculate_values_compatibility.
  destruct (set_of_items (fv_values v1)) as [values1|]; [|discriminate].
  destruct (set_of_items (fv_values v2)) as [values2|]; [|discriminate].
  cbn [mbind result_bind].
  destruct (_ || _); intros [= <-]; [vm_compute; split; discriminate|]. cbn [fst].
  apply ratio_bounds.
  etrans; [apply subseteq_size, intersection_subseteq_l | apply Nat.le_max_l].
Qed.

Lemma behavioral_compatibility_bounds (v1 v2 : FeatureVector) :
  (0 <= (_calculate_behavioral_compatibility v1 v2).1 <= 1)%Q.
Proof.
  unfold _calculate_behavioral_compatibility.
  do 2 destruct (Qlt_le_dec _ _); vm_compute; split; discriminate.
Qed.

Lemma trust_safety_score_bounds (v1 v2 : FeatureVector) :
  (0 <= trust_score v1 <= 1)%Q → (0 <= trust_score v2 <= 1)%Q →
  (0 <= (_calculate_trust_safety_score v1 v2).1 <= 1)%Q.
Proof.
  intros [Ha0 Ha1] [Hb0 Hb1]. unfold _calculate_trust_safety_score. cbn [fst].
  set (a := trust_score v1) in *. set (b := trust_score v2) in *.
  clearbody a b. split.
  - apply Qle_shift_div_l; [reflexivity|]. Lqa.lra.
  - apply Qle_shift_div_r; [reflexivity|]. Lqa.lra.
Qed.

Lemma activity_recency_bounds (v1 v2 : FeatureVector) :
  (0 <= (_calculate_activity_recency v1 v2).1 <= 1)%Q.
Proof. vm_compute. split; discriminate. Qed.

Lemma calculate_trust_score_bounds (user : User) :
  (0 <= _calculate_trust_score user <= 1)%Q.
Proof.
  unfold _calculate_trust_score. split; [apply Q.le_max_r|].
  apply Q.max_lub; [apply Q.le_min_r | discriminate].
Qed.

(** The weights add up to one. *)
Lemma weights_sum_to_one :
  (weights preference_alignment + weights interest_similarity
   + weights values_compatibility + weights behavioral_compatibility
   + weights trust_safety_score + weights activity_recency == 1)%Q.
Proof. reflexivity. Qed.

(** The final score and the reasons, written out; a failure of the values
    component is the failure of the whole. *)
Lemma score_of_vectors_expand (v1 v2 : FeatureVector) (values_result : Q * list string) :
  _calculate_values_compatibility v1 v2 = Ok values_result →
  ∃ final_score,
    score_of_vectors v1 v2
    = Ok (final_score,
          (_calculate_preference_alignment v1 v2).2
          ++ (_calculate_interest_similarity v1 v2).2
          ++ values_result.2
          ++ (_calculate_behavioral_compatibility v1 v2).2
          ++ (_calculate_trust_safety_score v1 v2).2
          ++ (_calculate_activity_recency v1 v2).2)
    ∧ (final_score
       == (_calculate_preference_alignment v1 v2).1 * 0.25
          + (_calculate_interest_similarity v1 v2).1 * 0.20
          + values_result.1 * 0.20
          + (_calculate_behavioral_compatibility v1 v2).1 * 0.15
          + (_calculate_trust_safety_score v1 v2).1 * 0.10
          + (_calculate_activity_recency v1 v2).1 * 0.10)%Q.
Proof.
  intros Hv. unfold score_of_vectors, component_results. rewrite Hv.
  cbn [mbind result_bind]. eexists. split.
  - unfold scores. cbn [map concat fst snd]. rewrite app_nil_r. reflexivity.
  - unfold scores, sumQ, weights. cbn [fst snd map fold_left]. ring.
Qed.

Lemma score_of_vectors_raise (v1 v2 : FeatureVector) (e : exn) :
  _calculate_values_compatibility v1 v2 = Raise e → score_of_vectors v1 v2 = Raise e.
Proof.
  intros Hv. unfold score_of_vectors, component_results. rewrite Hv. reflexivity.
Qed.

(** Symmetry of the components. *)
Lemma preference_alignment_swap (v1 v2 : FeatureVector) :
  (_calculate_preference_alignment v1 v2).1 = (_calculate_preference_alignment v2 v1).1.
Proof.
  unfold _calculate_preference_alignment.
  set (m1 := (_ <=? _)%Z && (_ <=? _)%Z). set (m2 := (_ <=? _)%Z && (_ <=? _)%Z).
  destruct m1, m2; reflexivity.
Qed.

Lemma interest_similarity_swap (v1 v2 : FeatureVector) :
  (_calculate_interest_similarity v1 v2).1 = (_calculate_interest_similarity v2 v1).1.
Proof.
  unfold _calculate_interest_similarity.
  rewrite (orb_comm (set_is_empty (py_set (fv_interests v2)))).
  destruct (_ || _); [reflexivity|]. cbn [fst].
  rewrite (comm_L (∪) (py_set (fv_interests v2))).
  rewrite (comm_L (∩) (py_set (fv_interests v2))). reflexivity.
Qed.

Lemma values_compatibility_swap (v1 v2 : FeatureVector) :
  same_score (_calculate_values_compatibility v1 v2) (_calculate_values_compatibility v2 v1).
Proof.
  unfold _calculate_values_compatibility.
  destruct (set_of_items_cases (fv_values v1)) as [[_ [values1 ->]] | [_ ->]];
    destruct (set_of_items_cases (fv_values v2)) as [[_ [values2 ->]] | [_ ->]];
    cbn [mbind result_bind same_score]; try reflexivity.
  rewrite (orb_comm (set_is_empty values2)).
  destruct (_ || _); [reflexivity|]. cbn [same_score].
  rewrite (comm_L (∩) values2), (Nat.max_comm (size values2)). reflexivity.
Qed.

Lemma behavioral_compatibility_swap (v1 v2 : FeatureVector) :
  (_calculate_behavioral_compatibility v1 v2).1
  = (_calculate_behavioral_compatibility v2 v1).1.
Proof.
  unfold _calculate_behavioral_compatibility.
  rewrite (Qabs_Qminus (reply_latency_avg (behavioral_signals v2))).
  rewrite (Qabs_Qminus (like_rate (behavioral_signals v2))).
  do 2 destruct (Qlt_le_dec _ _); reflexivity.
Qed.

Lemma trust_safety_score_swap (v1 v2 : FeatureVector) :
  ((_calculate_trust_safety_score v1 v2).1 == (_calculate_trust_safety_score v2 v1).1)%Q.
Proof. unfold _calculate_trust_safety_score. cbn [fst]. field. Qed.

Lemma score_of_vectors_swap (v1 v2 : FeatureVector) :
  same_score (score_of_vectors v1 v2) (score_of_vectors v2 v1).
Proof.
  pose proof (values_compatibility_swap v1 v2) as Hv.
  destruct (_calculate_values_compatibility v1 v2) as [[s12 r12]|e12] eqn:E12;
    destruct (_calculate_values_compatibility v2 v1) as [[s21 r21]|e21] eqn:E21;
    cbn [same_score] in Hv; try contradiction.
  - destruct (score_of_vectors_expand v1 v2 _ E12) as [f12 [-> H12]].
    destruct (score_of_vectors_expand v2 v1 _ E21) as [f21 [-> H21]].
    cbn [same_score fst] in *. rewrite H12, H21, Hv.
    rewrite (preference_alignment_swap v1 v2), (interest_similarity_swap v1 v2),
      (behavioral_compatibility_swap v1 v2), (trust_safety_score_swap v1 v2).
    reflexivity.
  - rewrite (score_of_vectors_raise v1 v2 _ E12), (score_of_vectors_raise v2 v1 _ E21).
    exact Hv.
Qed.

(** The constructor returns the built vector for a user with a profile and
    raises for a user without. *)
Lemma EnhancedFeatureVector_with_profile (str_lower : string → string)
    (db : DB) (user : User) (now : Z) (today : date) (p : Profile) :
  profile user = Some p →
  EnhancedFeatureVector str_lower db user now today
  = Ok (_build_feature_vector str_lower db user now today).
Proof. intros Hp. unfold EnhancedFeatureVector. rewrite Hp. reflexivity. Qed.

Lemma EnhancedFeatureVector_no_profile (str_lower : string → string)
    (db : DB) (user : User) (now : Z) (today : date) :
  profile user = None →
  EnhancedFeatureVector str_lower db user now today = Raise RelatedObjectDoesNotExist.
Proof. intros Hp. unfold EnhancedFeatureVector. rewrite Hp. reflexivity. Qed.

Lemma built_values_are_strings (str_lower : string → string)
    (db : DB) (user : User) (now : Z) (today : date) (p : Profile) :
  profile user = Some p → values_are_strings p = true →
  forallb is_str (fv_values (_build_feature_vector str_lower db user now today)) = true.
Proof.
  intros Hp Hs. unfold _build_feature_vector, _get_values. cbn [fv_values].
  rewrite Hp. unfold values_are_strings in Hs.
  destruct (values p) as [[|v vs]|]; [reflexivity|exact Hs|reflexivity].
Qed.

(** For two users with a profile whose stored values are strings the score is
    returned, and it is the weighted sum of six component scores in [0,1]. *)
Lemma match_score_with_profiles (str_lower : string → string)
    (db : DB) (now : Z) (today : date) (user1 user2 : User) (p1 p2 : Profile) :
  profile user1 = Some p1 → profile user2 = Some p2 →
  values_are_strings p1 = true → values_are_strings p2 = true →
  let v1 := _build_feature_vector str_lower db user1 now today in
  let v2 := _build_feature_vector str_lower db user2 now today in
  ∃ (values_result : Q * list string) (final_score : Q),
    _calculate_values_compatibility v1 v2 = Ok values_result
    ∧ calculate_match_score str_lower db now today user1 user2
      = Ok (final_score,
            (_calculate_preference_alignment v1 v2).2
            ++ (_calculate_interest_similarity v1 v2).2
            ++ values_result.2
            ++ (_calculate_behavioral_compatibility v1 v2).2
            ++ (_calculate_trust_safety_score v1 v2).2
            ++ (_calculate_activity_recency v1 v2).2)
    ∧ (final_score
       == (_calculate_preference_alignment v1 v2).1 * 0.25
          + (_calculate_interest_similarity v1 v2).1 * 0.20
          + values_result.1 * 0.20
          + (_calculate_behavioral_compatibility v1 v2).1 * 0.15
          + (_calculate_trust_safety_score v1 v2).1 * 0.10
          + (_calculate_activity_recency v1 v2).1 * 0.10)%Q
    ∧ (0.25 + 0.20 + 0.20 + 0.15 + 0.10 + 0.10 == 1)%Q
    ∧ Forall (fun score : Q => (0 <= score <= 1)%Q)
             [ (_calculate_preference_alignment v1 v2).1;
               (_calculate_interest_similarity v1 v2).1;
               values_result.1;
               (_calculate_behavioral_compatibility v1 v2).1;
               (_calculate_trust_safety_score v1 v2).1;
               (_calculate_activity_recency v1 v2).1 ]
    ∧ (0 <= final_score <= 1)%Q.
Proof.
  intros Hp1 Hp2 Hs1 Hs2 v1 v2.
  destruct (values_compatibility_returns v1 v2) as [values_result Hv];
    [by eapply built_values_are_strings..|].
  destruct (score_of_vectors_expand v1 v2 _ Hv) as [final_score [Hscore Hsum]].
  exists values_result, final_score.
  pose proof (preference_alignment_bounds v1 v2) as Hp.
  pose proof (interest_similarity_bounds v1 v2) as Hi.
  pose proof (values_compatibility_bounds v1 v2 _ Hv) as Hvb.
  pose proof (behavioral_compatibility_bounds v1 v2) as Hb.
  pose proof (trust_safety_score_bounds v1 v2
                (calculate_trust_score_bounds user1) (calculate_trust_score_bounds user2)) as Ht.
  pose proof (activity_recency_bounds v1 v2) as Hr.
  split; [exact Hv|]. split.
  { unfold calculate_match_score.
    rewrite (EnhancedFeatureVector_with_profile _ _ _ _ _ _ Hp1),
      (EnhancedFeatureVector_with_profile _ _ _ _ _ _ Hp2).
    exact Hscore. }
  split; [exact Hsum|]. split; [reflexivity|]. split.
  - repeat constructor; tauto.
  - rewrite Hsum.
    set (p := (_calculate_preference_alignment v1 v2).1) in *.
    set (i := (_calculate_interest_similarity v1 v2).1) in *.
    set (v := values_result.1) in *.
    set (b := (_calculate_behavioral_compatibility v1 v2).1) in *.
    set (t := (_calculate_trust_safety_score v1 v2).1) in *.
    set (r := (_calculate_activity_recency v1 v2).1) in *.
    clearbody p i v b t r. split; Lqa.lra.
Qed.

(** Swapping the users swaps the outcome of the constructors, not the
    exception they raise. *)
Lemma calculate_match_score_swap (str_lower : string → string)
    (db : DB) (now : Z) (today : date) (user1 user2 : User) :
  same_score (calculate_match_score str_lower db now today user1 user2)
             (calculate_match_score str_lower db now today user2 user1).
Proof.
  unfold calculate_match_score, EnhancedFeatureVector.
  destruct (profile user1), (profile user2); cbn [mbind result_bind same_score];
    try reflexivity.
  apply score_of_vectors_swap.
Qed.

End MatchScore.

(** A stored object among the values makes [set(...)] raise. *)
Lemma object_valued_user_has_no_match_score :
  calculate_match_score ascii_lower empty_db now0 today0 (plain_user 1) (object_valued_user 2)
  = Raise TypeError.
Proof. reflexivity. Qed.

(** C4.  The score is not returned for every pair of users: the constructor
    of the feature vector reads [user.profile], which raises
    [RelatedObjectDoesNotExist] for a user without [Profile] row, although
    every method that fills the vector starts with the guard
    [if not self.profile] and a default.  Two users with a profile, by
    contrast, get a score. *)
Theorem profileless_user_has_no_match_score :
  calculate_match_score ascii_lower empty_db now0 today0 (profileless_user 1) (plain_user 2)
  = Raise RelatedObjectDoesNotExist
  ∧ calculate_match_score ascii_lower empty_db now0 today0 (plain_user 2) (profileless_user 1)
    = Raise RelatedObjectDoesNotExist
  ∧ ∃ final_score reasons,
      calculate_match_score ascii_lower empty_db now0 today0 (plain_user 1) (plain_user 2)
      = Ok (final_score, reasons).
Proof. repeat split; try reflexivity. vm_compute. by eexists _, _. Qed.

(** C6.  Swapping the two vectors leaves every component score, the
    preference alignment included, and the final score unchanged; so does
    swapping the two users.  Where one order raises (the values component on
    a stored object, the constructor on a user without profile) the other
    order raises the same exception; for two users with a profile whose
    stored values are strings both orders return. *)
Theorem match_score_symmetric (str_lower : string → string)
    (db : DB) (now : Z) (today : date) (user1 user2 : User) (v1 v2 : FeatureVector) :
  (_calculate_preference_alignment v1 v2).1 = (_calculate_preference_alignment v2 v1).1
  ∧ (_calculate_interest_similarity v1 v2).1 = (_calculate_interest_similarity v2 v1).1
  ∧ same_score (_calculate_values_compatibility v1 v2) (_calculate_values_compatibility v2 v1)
  ∧ (_calculate_behavioral_compatibility v1 v2).1
    = (_calculate_behavioral_compatibility v2 v1).1
  ∧ ((_calculate_trust_safety_score v1 v2).1 == (_calculate_trust_safety_score v2 v1).1)%Q
  ∧ (_calculate_activity_recency v1 v2).1 = (_calculate_activity_recency v2 v1).1
  ∧ same_score (score_of_vectors v1 v2) (score_of_vectors v2 v1)
  ∧ same_score (calculate_match_score str_lower db now today user1 user2)
               (calculate_match_score str_lower db now today user2 user1)
  ∧ (∀ p1 p2, profile user1 = Some p1 → profile user2 = Some p2 →
              values_are_strings p1 = true → values_are_strings p2 = true →
              ∃ score12 reasons12 score21 reasons21,
                calculate_match_score str_lower db now today user1 user2
                = Ok (score12, reasons12)
                ∧ calculate_match_score str_lower db now today user2 user1
                  = Ok (score21, reasons21)
                ∧ (score12 == score21)%Q).
Proof.
  split; [apply preference_alignment_swap|].
  split; [apply interest_similarity_swap|].
  split; [apply values_compatibility_swap|].
  split; [apply behavioral_compatibility_swap|].
  split; [apply trust_safety_score_swap|].
  split; [reflexivity|].
  split; [apply score_of_vectors_swap|].
  split; [apply calculate_match_score_swap|].
  intros p1 p2 Hp1 Hp2 Hs1 Hs2.
  destruct (match_score_with_profiles str_lower db now today user1 user2 p1 p2
              Hp1 Hp2 Hs1 Hs2) as [values12 [score12 [_ [E12 _]]]].
  destruct (match_score_with_profiles str_lower db now today user2 user1 p2 p1
              Hp2 Hp1 Hs2 Hs1) as [values21 [score21 [_ [E21 _]]]].
  pose proof (calculate_match_score_swap str_lower db now today user1 user2) as Hswap.
  rewrite E12, E21 in Hswap. cbn [same_score] in Hswap.
  eexists score12, _, score21, _. split; [exact E12|]. split; [exact E21|exact Hswap].
Qed.

(** Two users with a profile and the same stored value, in both orders. *)
Lemma match_score_symmetric_witness :
  ∃ score12 reasons12 score21 reasons21,
    calculate_match_score ascii_lower empty_db now0 today0 (plain_user 1) (plain_user 2)
    = Ok (score12, reasons12)
    ∧ calculate_match_score ascii_lower empty_db now0 today0 (plain_user 2) (plain_user 1)
      = Ok (score21, reasons21)
    ∧ (score12 == score21)%Q.
Proof.
  destruct (match_score_symmetric ascii_lower empty_db now0 today0
              (plain_user 1) (plain_user 2) (vector_of [] []) (vector_of [] []))
    as (_ & _ & _ & _ & _ & _ & _ & _ & Hreturns).
  apply (Hreturns (with_values [ItemStr "honesty"] (bare_profile 1))
                  (with_values [ItemStr "honesty"] (bare_profile 2)));
    reflexivity.
Defined.

(** ** Cosine similarity *)

Section Similarity.

Lemma for_each_Ok {A B : Type} (f : A → result B) (g : A → B) (l : list A) :
  (∀ x, x ∈ l → f x = Ok (g x)) → for_each f l = Ok (map g l).
Proof.
  induction l as [|x l IH]; intros Hf; [reflexivity|].
  cbn [for_each map]. rewrite (Hf x) by left. cbn.
  rewrite IH by (intros y Hy; apply Hf; right; exact Hy). reflexivity.
Qed.

Lemma for_each_length {A B : Type} (f : A → result B) (l : list A) (ys : list B) :
  for_each f l = Ok ys → length ys = length l.
Proof.
  revert ys. induction l as [|x l IH]; intros ys; cbn [for_each].
  - intros [= <-]. reflexivity.
  - destruct (f x) as [y|e]; cbn; [|discriminate].
    destruct (for_each f l) as [ys'|e]; cbn; [|discriminate].
    intros [= <-]. cbn. f_equal. apply IH. reflexivity.
Qed.

Lemma insert_sorted_Permutation {A : Type} (lt : A → A → bool) (x : A) (l : list A) :
  insert_sorted lt x l ≡ₚ x :: l.
Proof.
  induction l as [|y l IH]; cbn; [reflexivity|].
  destruct (lt y x); [|reflexivity].
  rewrite IH. apply Permutation_swap.
Qed.

Lemma stable_sort_Permutation {A : Type} (lt : A → A → bool) (l : list A) :
  stable_sort lt l ≡ₚ l.
Proof.
  unfold stable_sort. induction l as [|x l IH]; cbn; [reflexivity|].
  rewrite insert_sorted_Permutation, IH. reflexivity.
Qed.

Lemma shared_keys_elem_of (vector1 vector2 : gmap string R) (k : string) :
  k ∈ shared_keys vector1 vector2 ↔ k ∈ dom vector1 ∩ dom vector2.
Proof.
  unfold shared_keys. rewrite stable_sort_Permutation. apply elem_of_elements.
Qed.

Lemma getitem_shared_l (vector1 vector2 : gmap string R) :
  for_each (getitem vector1) (shared_keys vector1 vector2)
  = Ok (restricted vector1 (shared_keys vector1 vector2)).
Proof.
  apply for_each_Ok. intros k Hk. apply shared_keys_elem_of in Hk.
  apply elem_of_intersection in Hk as [Hk _].
  apply elem_of_dom in Hk as [x Hx]. unfold getitem. rewrite Hx. reflexivity.
Qed.

Lemma getitem_shared_r (vector1 vector2 : gmap string R) :
  for_each (getitem vector2) (shared_keys vector1 vector2)
  = Ok (restricted vector2 (shared_keys vector1 vector2)).
Proof.
  apply for_each_Ok. intros k Hk. apply shared_keys_elem_of in Hk.
  apply elem_of_intersection in Hk as [_ Hk].
  apply elem_of_dom in Hk as [x Hx]. unfold getitem. rewrite Hx. reflexivity.
Qed.

Lemma sum_squares_nonneg (a : list R) :
  (0 <= np_sum (map (fun x => x * x) a))%R.
Proof.
  unfold np_sum. induction a as [|x a IH]; cbn; [Lra.lra|].
  pose proof (Rle_0_sqr x) as Hx. unfold Rsqr in Hx. Lra.lra.
Qed.

Lemma sum_squares_zero (a : list R) :
  np_sum (map (fun x => (x * x)%R) a) = 0%R ↔ Forall (fun x => x = 0%R) a.
Proof.
  pose proof (sum_squares_nonneg a) as Hnonneg. revert Hnonneg.
  unfold np_sum. induction a as [|x a IH]; cbn; intros Hnonneg.
  - split; [constructor | reflexivity].
  - pose proof (sum_squares_nonneg a) as Ha. unfold np_sum in Ha.
    specialize (IH Ha). pose proof (Rle_0_sqr x) as Hx.
    unfold Rsqr in Hx. split.
    + intros Hs. assert (Hx0 : (x * x = 0)%R) by Lra.lra.
      constructor.
      * destruct (Rmult_integral _ _ Hx0); assumption.
      * apply IH. Lra.lra.
    + intros Hall. apply Forall_cons in Hall as [-> Hall].
      apply IH in Hall. rewrite Hall. Lra.lra.
Qed.

(** The norm vanishes exactly on the zero vector. *)
Lemma norm_zero_iff (a : list R) :
  np_linalg_norm a = 0%R ↔ Forall (fun x => x = 0%R) a.
Proof.
  unfold np_linalg_norm. rewrite <- sum_squares_zero. split.
  - apply sqrt_eq_0, sum_squares_nonneg.
  - intros ->. apply sqrt_0.
Qed.

Lemma restricted_all_zero (vector1 vector2 v : gmap string R) :
  (∀ k, k ∈ dom vector1 ∩ dom vector2 → is_Some (v !! k)) →
  Forall (fun x => x = 0%R) (restricted v (shared_keys vector1 vector2))
  ↔ all_zero v (dom vector1 ∩ dom vector2).
Proof.
  intros Hdom. unfold restricted, all_zero. rewrite Forall_fmap, Forall_forall.
  split.
  - intros Hall k Hk. destruct (Hdom k Hk) as [x Hx].
    specialize (Hall k (proj2 (shared_keys_elem_of _ _ k) Hk)).
    cbn in Hall. rewrite Hx in Hall. cbn in Hall. rewrite Hx, Hall. reflexivity.
  - intros Hall k Hk. apply shared_keys_elem_of in Hk. cbn.
    rewrite (Hall k Hk). reflexivity.
Qed.

Lemma np_divide_Ok (a b : R) : b ≠ 0%R → np_divide a b = Ok (a / b)%R.
Proof.
  intros Hb. unfold np_divide, Reqb. destruct (Req_dec_T b 0); [contradiction|reflexivity].
Qed.

Lemma spec_cosine_unfold (a b : list R) :
  spec_cosine a b = (np_dot a b / (np_linalg_norm a * np_linalg_norm b))%R.
Proof. reflexivity. Qed.

(** The function always returns a number. *)
Lemma calculate_similarity_total (vector1 vector2 : gmap string R) :
  ∃ r, calculate_similarity vector1 vector2 = Ok r.
Proof.
  unfold calculate_similarity. destruct (bool_decide _); [eauto|].
  fold (shared_keys vector1 vector2).
  rewrite getitem_shared_l, getitem_shared_r. cbn.
  unfold Reqb at 1 2.
  destruct (Req_dec_T _ 0) as [|Ha]; cbn; [eauto|].
  destruct (Req_dec_T _ 0) as [|Hb]; cbn; [eauto|].
  rewrite np_divide_Ok; [eauto|]. apply Rmult_integral_contrapositive. split; assumption.
Qed.

End Similarity.

(** C5.  [calculate_similarity] always returns: it answers 0 when the two
    mappings share no key and when one of the vectors, restricted to the
    shared keys, is all zero (which is when its norm is zero); otherwise the
    product of the norms is not zero and the answer is the cosine similarity
    of the restricted vectors. *)
Theorem calculate_similarity_guards_division (vector1 vector2 : gmap string R) :
  let common_keys : gset string := dom vector1 ∩ dom vector2 in
  let a := restricted vector1 (shared_keys vector1 vector2) in
  let b := restricted vector2 (shared_keys vector1 vector2) in
  ∃ r, calculate_similarity vector1 vector2 = Ok r
       ∧ ((common_keys = ∅ ∧ r = 0%R)
          ∨ (common_keys ≠ ∅
             ∧ (all_zero vector1 common_keys ∨ all_zero vector2 common_keys)
             ∧ (np_linalg_norm a = 0%R ∨ np_linalg_norm b = 0%R)
             ∧ r = 0%R)
          ∨ (common_keys ≠ ∅
             ∧ ¬ all_zero vector1 common_keys ∧ ¬ all_zero vector2 common_keys
             ∧ (np_linalg_norm a * np_linalg_norm b)%R ≠ 0%R
             ∧ r = spec_cosine a b)).
Proof.
  intros common_keys a b. subst common_keys.
  assert (Hdom1 : ∀ k, k ∈ dom vector1 ∩ dom vector2 → is_Some (vector1 !! k)).
  { intros k Hk. apply elem_of_intersection in Hk as [Hk _]. by apply elem_of_dom. }
  assert (Hdom2 : ∀ k, k ∈ dom vector1 ∩ dom vector2 → is_Some (vector2 !! k)).
  { intros k Hk. apply elem_of_intersection in Hk as [_ Hk]. by apply elem_of_dom. }
  pose proof (restricted_all_zero vector1 vector2 vector1 Hdom1) as Hz1.
  pose proof (restricted_all_zero vector1 vector2 vector2 Hdom2) as Hz2.
  fold a in Hz1. fold b in Hz2.
  unfold calculate_similarity. fold (shared_keys vector1 vector2).
  destruct (bool_decide_reflect (dom vector1 ∩ dom vector2 = (∅ : gset string)))
    as [Hempty|Hne].
  { exists 0%R. split; [reflexivity|]. left. split; [exact Hempty|reflexivity]. }
  rewrite getitem_shared_l, getitem_shared_r. cbn. fold a b.
  unfold Reqb at 1 2.
  destruct (Req_dec_T (np_linalg_norm a) 0) as [Ha|Ha]; cbn.
  { exists 0%R. split; [reflexivity|]. right; left.
    repeat split; [exact Hne| |left; exact Ha]. left. apply Hz1, norm_zero_iff, Ha. }
  destruct (Req_dec_T (np_linalg_norm b) 0) as [Hb|Hb]; cbn.
  { exists 0%R. split; [reflexivity|]. right; left.
    repeat split; [exact Hne| |right; exact Hb]. right. apply Hz2, norm_zero_iff, Hb. }
  assert (Hprod : (np_linalg_norm a * np_linalg_norm b)%R ≠ 0%R).
  { apply Rmult_integral_contrapositive. split; assumption. }
  rewrite (np_divide_Ok _ _ Hprod). eexists. split; [reflexivity|]. right; right.
  repeat split; try assumption.
  - intros Hall. apply Ha, norm_zero_iff, Hz1, Hall.
  - intros Hall. apply Hb, norm_zero_iff, Hz2, Hall.
Qed.

(** ** Candidates without a feature vector *)

Section DefaultSimilarity.

Variables (db : DB) (now : Z) (user_feature_vector : gmap string R).

Lemma for_each_elem_of {A B : Type} (f : A → result B) (l : list A) (ys : list B)
    (x : A) (y : B) :
  for_each f l = Ok ys → x ∈ l → f x = Ok y → y ∈ ys.
Proof.
  revert ys. induction l as [|x' l IH]; intros ys Hrun Hx Hfx.
  - inversion Hx.
  - cbn [for_each] in Hrun.
    destruct (f x') as [y'|e] eqn:Ey; cbn in Hrun; [|discriminate].
    destruct (for_each f l) as [ys'|e] eqn:Eys; cbn in Hrun; [|discriminate].
    injection Hrun as <-. apply elem_of_cons in Hx as [->|Hx].
    + rewrite Ey in Hfx. injection Hfx as ->. left.
    + right. apply (IH ys' eq_refl Hx Hfx).
Qed.

Lemma for_each_total {A B : Type} (f : A → result B) (l : list A) :
  (∀ x, x ∈ l → ∃ y, f x = Ok y) → ∃ ys, for_each f l = Ok ys.
Proof.
  induction l as [|x l IH]; intros Hf; [eexists; reflexivity|].
  destruct (Hf x) as [y Hy]; [left|].
  destruct IH as [ys Hys]; [intros z Hz; apply Hf; right; exact Hz|].
  exists (y :: ys). cbn [for_each]. rewrite Hy. cbn. rewrite Hys. reflexivity.
Qed.

(** Scoring a candidate never fails and keeps the candidate. *)
Lemma score_candidate_total (candidate_profile : Profile) :
  ∃ s, score_candidate db user_feature_vector candidate_profile
       = Ok {| rec_profile := candidate_profile; similarity := s |}.
Proof.
  unfold score_candidate.
  destruct (feature_vectors db !! profile_user candidate_profile) as [fv|]; [|eauto].
  destruct (bool_decide (fv = ∅)); [eauto|].
  destruct (calculate_similarity_total user_feature_vector fv) as [r ->]. cbn. eauto.
Qed.

Lemma score_candidate_default (candidate_profile : Profile) :
  feature_vectors db !! profile_user candidate_profile = None
  ∨ feature_vectors db !! profile_user candidate_profile = Some ∅ →
  score_candidate db user_feature_vector candidate_profile
  = Ok {| rec_profile := candidate_profile; similarity := 0.5 |}.
Proof.
  unfold score_candidate. intros [-> | ->]; [reflexivity|].
  rewrite bool_decide_eq_true_2 by reflexivity. reflexivity.
Qed.

(** The scoring loop yields one entry per candidate, in order. *)
Lemma scoring_loop_keeps_candidates (candidates : list Profile) :
  ∃ recommendations,
    for_each (score_candidate db user_feature_vector) candidates = Ok recommendations
    ∧ map rec_profile recommendations = candidates.
Proof.
  induction candidates as [|c cs [recs [Hrecs Hmap]]]; [exists []; split; reflexivity|].
  destruct (score_candidate_total c) as [s Hs].
  exists ({| rec_profile := c; similarity := s |} :: recs).
  cbn [for_each]. rewrite Hs. cbn. rewrite Hrecs. cbn. rewrite Hmap. split; reflexivity.
Qed.

(** A successful sort is a rearrangement of its input. *)
Lemma sort_recommendations_Permutation (recommendations ranked : list Recommendation) :
  sort_recommendations now recommendations = Ok ranked → ranked ≡ₚ recommendations.
Proof.
  unfold sort_recommendations.
  destruct (for_each _ recommendations) as [keyed|e] eqn:Ekeyed; cbn; [|discriminate].
  intros [= <-]. rewrite stable_sort_Permutation.
  enough (map snd keyed = recommendations) as -> by reflexivity.
  revert keyed Ekeyed. induction recommendations as [|x xs IH]; intros keyed; cbn [for_each].
  - intros [= <-]. reflexivity.
  - destruct (sort_key now x) as [k|e]; cbn; [|discriminate].
    destruct (for_each _ xs) as [keyed'|e]; cbn; [|discriminate].
    intros [= <-]. cbn. f_equal. apply IH. reflexivity.
Qed.

(** The sort succeeds when every entry has a boost expiry. *)
Lemma sort_recommendations_total (recommendations : list Recommendation) :
  Forall (fun x => is_Some (boost_expiry (rec_profile x))) recommendations →
  ∃ ranked, sort_recommendations now recommendations = Ok ranked.
Proof.
  intros Hall. unfold sort_recommendations.
  destruct (for_each_total (fun x => k ← sort_key now x; Ok (k, x)) recommendations)
    as [keyed ->]; [|cbn; eauto].
  intros x Hx. rewrite Forall_forall in Hall. destruct (Hall x Hx) as [expiry He].
  unfold sort_key. rewrite He. cbn. eauto.
Qed.

End DefaultSimilarity.

(** C10.  In the AI path a candidate whose feature vector is absent or empty
    is not skipped: the scoring loop yields one entry per candidate, the
    entry of this candidate carries the similarity 0.5, the answer is the
    sort-and-truncate step applied to all entries, and every successful sort
    still contains the entry. *)
Theorem unscored_candidate_gets_default
    (db : DB) (now : Z) (user : User) (user_feature_vector : gmap string R)
    (base_queryset : list Profile) (c : Profile) :
  c ∈ candidate_profiles db user base_queryset →
  feature_vectors db !! profile_user c = None
  ∨ feature_vectors db !! profile_user c = Some ∅ →
  ∃ recommendations,
    for_each (score_candidate db user_feature_vector)
             (candidate_profiles db user base_queryset) = Ok recommendations
    ∧ map rec_profile recommendations = candidate_profiles db user base_queryset
    ∧ {| rec_profile := c; similarity := 0.5 |} ∈ recommendations
    ∧ ai_powered db now user user_feature_vector base_queryset
      = top_recommendations now recommendations
    ∧ ∀ ranked, sort_recommendations now recommendations = Ok ranked →
                {| rec_profile := c; similarity := 0.5 |} ∈ ranked
                ∧ top_recommendations now recommendations
                  = Ok (map rec_profile (take 10 ranked)).
Proof.
  intros Hc Hfv.
  destruct (scoring_loop_keeps_candidates db user_feature_vector
              (candidate_profiles db user base_queryset)) as [recs [Hrecs Hmap]].
  exists recs.
  assert (Hin : {| rec_profile := c; similarity := 0.5 |} ∈ recs).
  { eapply for_each_elem_of; [exact Hrecs | exact Hc |].
    apply score_candidate_default, Hfv. }
  split; [exact Hrecs|]. split; [exact Hmap|]. split; [exact Hin|]. split.
  - unfold ai_powered. rewrite Hrecs. reflexivity.
  - intros ranked Hranked. split.
    + rewrite (sort_recommendations_Permutation now recs ranked Hranked). exact Hin.
    + unfold top_recommendations. rewrite Hranked. reflexivity.
Qed.

(** The candidate of [lapsed_pool] has no feature vector and is returned. *)
Lemma unscored_candidate_gets_default_witness :
  ∃ recommendations,
    for_each (score_candidate lapsed_pool {[ "feature_0" := 1%R ]})
             (candidate_profiles lapsed_pool requester
                [with_boost (now0 - 3600) (bare_profile 2)]) = Ok recommendations
    ∧ map rec_profile recommendations
      = candidate_profiles lapsed_pool requester [with_boost (now0 - 3600) (bare_profile 2)]
    ∧ {| rec_profile := with_boost (now0 - 3600) (bare_profile 2); similarity := 0.5 |}
      ∈ recommendations
    ∧ ai_powered lapsed_pool now0 requester {[ "feature_0" := 1%R ]}
        [with_boost (now0 - 3600) (bare_profile 2)]
      = top_recommendations now0 recommendations
    ∧ ∀ ranked, sort_recommendations now0 recommendations = Ok ranked →
                {| rec_profile := with_boost (now0 - 3600) (bare_profile 2);
                   similarity := 0.5 |} ∈ ranked
                ∧ top_recommendations now0 recommendations
                  = Ok (map rec_profile (take 10 ranked)).
Proof.
  apply (unscored_candidate_gets_default lapsed_pool now0 requester
           {[ "feature_0" := 1%R ]} [with_boost (now0 - 3600) (bare_profile 2)]
           (with_boost (now0 - 3600) (bare_profile 2))).
  - left.
  - left. reflexivity.
Defined.

(** * Further properties *)

(** Close a goal on closed rationals by evaluation. *)
Ltac by_evaluation :=
  vm_compute;
  first [ reflexivity | discriminate | split; first [reflexivity | discriminate] ].

(** ** Fields of the feature vector *)

Section FeatureFields.

Variables (db : DB) (user : User).

Lemma trust_score_range :
  (0.5 <= _calculate_trust_score user <= 0.8)%Q.
Proof.
  unfold _calculate_trust_score.
  destruct (is_verified user), (profile user) as [p|];
    try destruct (has_primary_photo p); by_evaluation.
Qed.

Lemma ofnat_succ (n : nat) : (ofnat (S n) == ofnat n + 1)%Q.
Proof.
  unfold ofnat. rewrite Nat2Z.inj_succ. unfold Z.succ. rewrite inject_Z_plus. reflexivity.
Qed.

Lemma ofnat_nonneg (n : nat) : (0 <= ofnat n)%Q.
Proof. unfold ofnat. change 0%Q with (inject_Z 0). rewrite <- Zle_Qle. lia. Qed.

Lemma fold_sum_bounds (lo hi : Q) (l : list Q) (acc : Q) :
  Forall (fun x => (lo <= x <= hi)%Q) l →
  (acc + lo * ofnat (length l) <= fold_left Qplus l acc
   ∧ fold_left Qplus l acc <= acc + hi * ofnat (length l))%Q.
Proof.
  revert acc. induction l as [|x l IH]; intros acc Hall; cbn [fold_left length].
  - change (ofnat 0) with 0%Q. split; Lqa.lra.
  - apply Forall_cons in Hall as [[Hlo Hhi] Hall].
    destruct (IH (acc + x)%Q Hall) as [IHlo IHhi].
    pose proof (ofnat_succ (length l)) as Hs.
    set (n := ofnat (length l)) in *. set (n' := ofnat (S (length l))) in *.
    set (s := fold_left Qplus l (acc + x)%Q) in *. clearbody n n' s.
    assert (Hl : (lo * n' == lo * n + lo)%Q) by (rewrite Hs; ring).
    assert (Hh : (hi * n' == hi * n + hi)%Q) by (rewrite Hs; ring).
    split; Lqa.lra.
Qed.

(** The mean of a non-empty list lies between the bounds of its elements. *)
Lemma average_bounds (lo hi : Q) (l : list Q) :
  l ≠ [] → Forall (fun x => (lo <= x <= hi)%Q) l →
  (lo <= sumQ l / ofnat (length l) <= hi)%Q.
Proof.
  intros Hne Hall. destruct (fold_sum_bounds lo hi l 0 Hall) as [Hlo Hhi].
  assert (Hpos : (0 < ofnat (length l))%Q).
  { destruct l; [contradiction|]. cbn [length]. rewrite ofnat_succ.
    pose proof (ofnat_nonneg (length l)). Lqa.lra. }
  unfold sumQ. split.
  - apply Qle_shift_div_l; [exact Hpos|]. Lqa.lra.
  - apply Qle_shift_div_r; [exact Hpos|]. Lqa.lra.
Qed.

Lemma insert_sorted_by_key {A : Type} (key : A → Z) (x : A) (l : list A) :
  StronglySorted (fun a b => (key a <= key b)%Z) l →
  StronglySorted (fun a b => (key a <= key b)%Z)
                 (insert_sorted (fun a b => (key a <? key b)%Z) x l).
Proof.
  induction l as [|y l IH]; intros Hs; cbn [insert_sorted].
  - repeat constructor.
  - apply StronglySorted_inv in Hs as [Hs Hy].
    destruct (Z.ltb_spec (key y) (key x)) as [Hlt|Hge].
    + constructor; [apply IH, Hs|].
      rewrite insert_sorted_Permutation. constructor; [lia | exact Hy].
    + constructor; [constructor; assumption|].
      constructor; [exact Hge|]. eapply Forall_impl; [exact Hy|]. cbn. intros. lia.
Qed.

(** Sorting by an integer key yields a list in non-decreasing key order. *)
Lemma stable_sort_by_key {A : Type} (key : A → Z) (l : list A) :
  StronglySorted (fun a b => (key a <= key b)%Z)
                 (stable_sort (fun a b => (key a <? key b)%Z) l).
Proof.
  unfold stable_sort. induction l as [|x l IH]; cbn [foldr]; [constructor|].
  apply insert_sorted_by_key, IH.
Qed.

Lemma walk_messages_nonneg (msgs : list Message) (prev_time : option Z) :
  StronglySorted (fun a b => (created_at a <= created_at b)%Z) msgs →
  (∀ t, prev_time = Some t → Forall (fun m => (t <= created_at m)%Z) msgs) →
  Forall (fun x => (0 <= x)%Q) (walk_messages user prev_time msgs).
Proof.
  revert prev_time. induction msgs as [|msg rest IH]; intros prev_time Hs Hprev;
    cbn [walk_messages]; [constructor|].
  apply StronglySorted_inv in Hs as [Hs Hmsg].
  destruct (negb (sender msg =? user_id user)%Z).
  - apply Forall_app. split.
    + destruct prev_time as [t|]; [|constructor]. repeat constructor.
      specialize (Hprev t eq_refl). apply Forall_cons in Hprev as [Ht _].
      apply Q.min_glb; [|discriminate].
      apply Qle_shift_div_l; [reflexivity|]. rewrite Qmult_0_l.
      unfold ofZ. change 0%Q with (inject_Z 0). rewrite <- Zle_Qle. lia.
    + apply IH; [exact Hs|]. intros t [= <-]. exact Hmsg.
  - apply IH; [exact Hs|]. intros t Ht. specialize (Hprev t Ht).
    apply Forall_cons in Hprev as [_ Hprev]. exact Hprev.
Qed.

Lemma reply_latencies_range :
  Forall (fun x => (0 <= x <= 1440)%Q) (_calculate_reply_latencies db user).
Proof.
  apply Forall_and. split; [|apply reply_latencies_capped].
  unfold _calculate_reply_latencies.
  induction (user_conversations db user) as [|conv convs IH]; cbn [map concat];
    [constructor|].
  apply Forall_app. split; [|exact IH].
  apply walk_messages_nonneg; [apply stable_sort_by_key | discriminate].
Qed.

End FeatureFields.

(** X1.  The trust score is 0.5, plus 0.2 for a verified e-mail address, plus
    0.1 for a primary photo; it stays between 0.5 and 0.8, so the clamp to
    [0,1] never changes it. *)
Theorem trust_score_by_flags (user : User) :
  let photo :=
    match profile user with
    | Some p => has_primary_photo p
    | None => false
    end in
  (_calculate_trust_score user
   == 0.5 + (if is_verified user then 0.2 else 0) + (if photo then 0.1 else 0))%Q
  ∧ (0.5 <= _calculate_trust_score user <= 0.8)%Q.
Proof.
  unfold _calculate_trust_score.
  destruct (is_verified user), (profile user) as [p|];
    try destruct (has_primary_photo p); cbn zeta; split; by_evaluation.
Qed.

(** X2.  The chat depth score, the share of the user's conversations with at
    least ten messages, lies in [0,1]; it is 0 without conversations. *)
Theorem chat_depth_score_bounds (db : DB) (user : User) :
  (0 <= _calculate_chat_depth_score db user <= 1)%Q
  ∧ (user_conversations db user = [] → _calculate_chat_depth_score db user = 0%Q).
Proof.
  unfold _calculate_chat_depth_score. split.
  - destruct (user_conversations db user) as [|c cs]; [split; discriminate|].
    apply ratio_bounds, length_filter.
  - intros ->. reflexivity.
Qed.

(** X3.  The unmatch rate, the share of the user's matches that are
    inactive, lies in [0,1]. *)
Theorem unmatch_rate_bounds (db : DB) (user : User) :
  (0 <= _calculate_unmatch_rate db user <= 1)%Q.
Proof.
  unfold _calculate_unmatch_rate.
  destruct (length (user_matches db user) =? 0)%nat; [split; discriminate|].
  apply ratio_bounds, length_filter.
Qed.

(** X4.  The like rate, likes over likes plus passes, lies in [0,1]. *)
Theorem like_rate_bounds (db : DB) (user : User) :
  (0 <= like_rate (_get_behavioral_signals db user) <= 1)%Q.
Proof.
  unfold _get_behavioral_signals. cbn [like_rate].
  destruct (0 <? _)%nat; [|split; discriminate].
  apply ratio_bounds. lia.
Qed.

(** X5.  The average reply latency lies between 0 and 1440 minutes: every
    observation is a gap between two messages in chronological order, capped
    at 24 hours, and the default is 300. *)
Theorem reply_latency_avg_bounds (db : DB) (user : User) :
  (0 <= reply_latency_avg (_get_behavioral_signals db user) <= 1440)%Q.
Proof.
  unfold _get_behavioral_signals. cbn [reply_latency_avg].
  pose proof (reply_latencies_range db user) as Hall.
  destruct (_calculate_reply_latencies db user) as [|x l] eqn:E; [split; discriminate|].
  apply average_bounds; [discriminate | exact Hall].
Qed.

(** ** Components of the match score *)

Section Components.

Lemma ofnat_inj (a b : nat) : (ofnat a == ofnat b)%Q → a = b.
Proof. unfold ofnat, Qeq. cbn. lia. Qed.

Lemma ratio_one (a b : nat) :
  b ≠ 0%nat → ((ofnat a / ofnat b == 1)%Q ↔ a = b).
Proof.
  intros Hb. destruct b as [|b]; [contradiction|].
  unfold ofnat, Qdiv, Qinv, Qmult, Qeq. rewrite Nat2Z.inj_succ.
  cbn [Qnum Qden inject_Z]. rewrite <- Nat2Z.inj_succ.
  destruct (Z.of_nat (S b)) as [|p|p] eqn:E; [lia| |lia].
  cbn [Qnum Qden]. split; intros H; [|subst a]; lia.
Qed.

Lemma py_set_empty (l : list string) : set_is_empty (py_set l) = true ↔ l = [].
Proof.
  unfold set_is_empty, py_set. rewrite bool_decide_eq_true. split.
  - destruct l as [|x l]; [reflexivity|]. intros H.
    assert (Hx : x ∈ (list_to_set (x :: l) : gset string)) by set_solver.
    rewrite H in Hx. set_solver.
  - intros ->. reflexivity.
Qed.

Lemma preference_alignment_floor (v1 v2 : FeatureVector) :
  (0.4 <= (_calculate_preference_alignment v1 v2).1)%Q.
Proof.
  unfold _calculate_preference_alignment.
  repeat match goal with
    | |- context [if ?b then _ else _] => destruct b
    end; by_evaluation.
Qed.

Lemma behavioral_compatibility_range (v1 v2 : FeatureVector) :
  (0.4 <= (_calculate_behavioral_compatibility v1 v2).1 <= 0.8)%Q.
Proof.
  unfold _calculate_behavioral_compatibility.
  do 2 destruct (Qlt_le_dec _ _); by_evaluation.
Qed.

End Components.

(** X6.  The preference alignment is 1 exactly when each user's age lies in
    the other's age range; it is never below the flat 0.4 of the distance
    placeholder. *)
Theorem preference_alignment_full_credit (v1 v2 : FeatureVector) :
  let in_range (pref : Z * Z) (a : Z) := (pref.1 <=? a)%Z && (a <=? pref.2)%Z in
  let age_match_1 := in_range (age_range (preferences v1)) (age (demographics v2)) in
  let age_match_2 := in_range (age_range (preferences v2)) (age (demographics v1)) in
  (((_calculate_preference_alignment v1 v2).1 == 1)%Q
   ↔ age_match_1 = true ∧ age_match_2 = true)
  ∧ (0.4 <= (_calculate_preference_alignment v1 v2).1)%Q.
Proof.
  intros in_range age_match_1 age_match_2.
  split; [|apply preference_alignment_floor].
  unfold _calculate_preference_alignment.
  subst age_match_1 age_match_2 in_range. cbn beta.
  set (m1 := (_ <=? age (demographics v2))%Z && _).
  set (m2 := (_ <=? age (demographics v1))%Z && _).
  destruct m1, m2; cbn [andb orb fst]; split; intros H.
  all: first [ split; reflexivity
             | reflexivity
             | destruct H; discriminate
             | vm_compute in H; discriminate ].
Qed.

(** X7.  For two users who both have interests, the interest similarity is
    1 exactly when the two sets of interests are equal. *)
Theorem interest_similarity_one_iff_equal (v1 v2 : FeatureVector) :
  fv_interests v1 ≠ [] → fv_interests v2 ≠ [] →
  ((_calculate_interest_similarity v1 v2).1 == 1)%Q
  ↔ py_set (fv_interests v1) = py_set (fv_interests v2).
Proof.
  intros H1 H2. unfold _calculate_interest_similarity.
  destruct (set_is_empty (py_set (fv_interests v1))) eqn:E1;
    [apply py_set_empty in E1; contradiction|].
  destruct (set_is_empty (py_set (fv_interests v2))) eqn:E2;
    [apply py_set_empty in E2; contradiction|].
  cbn [orb fst].
  set (X := py_set (fv_interests v1)) in *. set (Y := py_set (fv_interests v2)) in *.
  assert (HX : X ≠ ∅).
  { intros H. unfold set_is_empty in E1. rewrite bool_decide_eq_false in E1. contradiction. }
  assert (Hu : X ∪ Y ≠ ∅).
  { intros H. apply HX. set_solver. }
  unfold set_is_empty at 1. rewrite bool_decide_eq_false_2 by exact Hu.
  assert (Hsize : size (X ∪ Y) ≠ 0%nat).
  { intros H. apply size_empty_iff in H. apply Hu. apply leibniz_equiv, H. }
  rewrite (ratio_one _ _ Hsize). split.
  - intros Hs.
    assert (Heq : X ∩ Y = X ∪ Y).
    { apply set_subseteq_size_eq; [set_solver | lia]. }
    apply set_eq. intros x. split; intros Hx.
    + assert (x ∈ X ∩ Y) by (rewrite Heq; set_solver). set_solver.
    + assert (x ∈ X ∩ Y) by (rewrite Heq; set_solver). set_solver.
  - intros ->. f_equal. set_solver.
Qed.

(** Two users with the single interest "hiking". *)
Lemma interest_similarity_one_iff_equal_witness :
  ((_calculate_interest_similarity (vector_of ["hiking"] []) (vector_of ["hiking"] [])).1
   == 1)%Q
  ↔ py_set (fv_interests (vector_of ["hiking"] []))
    = py_set (fv_interests (vector_of ["hiking"] [])).
Proof.
  apply (interest_similarity_one_iff_equal (vector_of ["hiking"] []) (vector_of ["hiking"] []));
    discriminate.
Defined.

(** X8.  The behavioural compatibility takes one of the values 0.4, 0.6 and
    0.8, and a vector compared with itself scores 0.8. *)
Theorem behavioral_compatibility_levels (v1 v2 : FeatureVector) :
  (((_calculate_behavioral_compatibility v1 v2).1 == 0.4)%Q
   ∨ ((_calculate_behavioral_compatibility v1 v2).1 == 0.6)%Q
   ∨ ((_calculate_behavioral_compatibility v1 v2).1 == 0.8)%Q)
  ∧ ((_calculate_behavioral_compatibility v1 v1).1 == 0.8)%Q.
Proof.
  split.
  - unfold _calculate_behavioral_compatibility.
    do 2 destruct (Qlt_le_dec _ _); cbn [fst];
      [right; right | right; left | right; left | left]; reflexivity.
  - unfold _calculate_behavioral_compatibility.
    assert (Hzero : ∀ x : Q, (Qabs (x - x) == 0)%Q).
    { intros x. unfold Qminus. rewrite Qplus_opp_r. reflexivity. }
    destruct (Qlt_le_dec _ 60) as [_|Hge].
    + destruct (Qlt_le_dec _ 0.2) as [_|Hge]; [reflexivity|].
      rewrite Hzero in Hge. Lqa.lra.
    + rewrite Hzero in Hge. Lqa.lra.
Qed.

(** The number of reasons each component gives. *)
Lemma preference_alignment_one_reason (v1 v2 : FeatureVector) :
  length (_calculate_preference_alignment v1 v2).2 = 1%nat.
Proof.
  unfold _calculate_preference_alignment.
  destruct (_ && _); [|destruct (_ || _)]; reflexivity.
Qed.

Lemma interest_similarity_one_reason (v1 v2 : FeatureVector) :
  length (_calculate_interest_similarity v1 v2).2 = 1%nat.
Proof.
  unfold _calculate_interest_similarity.
  destruct (_ || _); [|cbn [snd]; destruct (negb _)]; reflexivity.
Qed.

Lemma values_compatibility_one_reason (v1 v2 : FeatureVector)
    (values_result : Q * list string) :
  _calculate_values_compatibility v1 v2 = Ok values_result →
  length values_result.2 = 1%nat.
Proof.
  unfold _calculate_values_compatibility.
  destruct (set_of_items (fv_values v1)) as [values1|]; [|discriminate].
  destruct (set_of_items (fv_values v2)) as [values2|]; [|discriminate].
  cbn [mbind result_bind].
  destruct (_ || _); intros [= <-]; [|cbn [snd]; destruct (negb _)]; reflexivity.
Qed.

Lemma behavioral_compatibility_two_reasons (v1 v2 : FeatureVector) :
  length (_calculate_behavioral_compatibility v1 v2).2 = 2%nat.
Proof.
  unfold _calculate_behavioral_compatibility.
  do 2 destruct (Qlt_le_dec _ _); reflexivity.
Qed.

Lemma trust_safety_score_one_reason (v1 v2 : FeatureVector) :
  length (_calculate_trust_safety_score v1 v2).2 = 1%nat.
Proof.
  unfold _calculate_trust_safety_score. cbn [snd].
  destruct (Qlt_le_dec _ _); [|destruct (Qlt_le_dec _ _)]; reflexivity.
Qed.

(** X9.  For two users with a profile whose stored values are strings, the
    match score comes with exactly seven reasons: one for the age
    preferences, one for the interests, one for the values, two for the
    behaviour, one for trust and one for recency, in this order. *)
Theorem match_score_has_seven_reasons (str_lower : string → string)
    (db : DB) (now : Z) (today : date) (user1 user2 : User) (p1 p2 : Profile) :
  profile user1 = Some p1 → profile user2 = Some p2 →
  values_are_strings p1 = true → values_are_strings p2 = true →
  ∃ (final_score : Q) (reasons : list string) (values_result : Q * list string),
    calculate_match_score str_lower db now today user1 user2 = Ok (final_score, reasons)
    ∧ _calculate_values_compatibility
        (_build_feature_vector str_lower db user1 now today)
        (_build_feature_vector str_lower db user2 now today) = Ok values_result
    ∧ length reasons = 7%nat
    ∧ take 3 reasons
      = (_calculate_preference_alignment
           (_build_feature_vector str_lower db user1 now today)
           (_build_feature_vector str_lower db user2 now today)).2
        ++ (_calculate_interest_similarity
              (_build_feature_vector str_lower db user1 now today)
              (_build_feature_vector str_lower db user2 now today)).2
        ++ values_result.2.
Proof.
  intros Hp1 Hp2 Hs1 Hs2.
  destruct (match_score_with_profiles str_lower db now today user1 user2 p1 p2
              Hp1 Hp2 Hs1 Hs2) as [values_result [final_score [Hv [Hscore _]]]].
  set (v1 := _build_feature_vector str_lower db user1 now today) in *.
  set (v2 := _build_feature_vector str_lower db user2 now today) in *.
  eexists final_score, _, values_result.
  split; [exact Hscore|]. split; [exact Hv|].
  pose proof (preference_alignment_one_reason v1 v2) as Hp.
  pose proof (interest_similarity_one_reason v1 v2) as Hi.
  pose proof (values_compatibility_one_reason v1 v2 _ Hv) as Hvr.
  pose proof (behavioral_compatibility_two_reasons v1 v2) as Hb.
  pose proof (trust_safety_score_one_reason v1 v2) as Ht.
  split.
  - rewrite !length_app, Hp, Hi, Hvr, Hb, Ht. reflexivity.
  - set (a := (_calculate_preference_alignment v1 v2).2) in *.
    set (b := (_calculate_interest_similarity v1 v2).2) in *.
    set (c := values_result.2) in *.
    set (rest := (_calculate_behavioral_compatibility v1 v2).2 ++ _).
    replace (a ++ b ++ c ++ rest) with ((a ++ b ++ c) ++ rest)
      by (rewrite <- !(assoc_L (++)); reflexivity).
    rewrite take_app_length'; [reflexivity|].
    rewrite !length_app, Hp, Hi, Hvr. reflexivity.
Qed.

Lemma match_score_has_seven_reasons_witness :
  ∃ (final_score : Q) (reasons : list string) (values_result : Q * list string),
    calculate_match_score ascii_lower empty_db now0 today0 (plain_user 1) (plain_user 2)
    = Ok (final_score, reasons)
    ∧ _calculate_values_compatibility
        (_build_feature_vector ascii_lower empty_db (plain_user 1) now0 today0)
        (_build_feature_vector ascii_lower empty_db (plain_user 2) now0 today0)
      = Ok values_result
    ∧ length reasons = 7%nat
    ∧ take 3 reasons
      = (_calculate_preference_alignment
           (_build_feature_vector ascii_lower empty_db (plain_user 1) now0 today0)
           (_build_feature_vector ascii_lower empty_db (plain_user 2) now0 today0)).2
        ++ (_calculate_interest_similarity
              (_build_feature_vector ascii_lower empty_db (plain_user 1) now0 today0)
              (_build_feature_vector ascii_lower empty_db (plain_user 2) now0 today0)).2
        ++ values_result.2.
Proof.
  apply (match_score_has_seven_reasons ascii_lower empty_db now0 today0
           (plain_user 1) (plain_user 2)
           (with_values [ItemStr "honesty"] (bare_profile 1))
           (with_values [ItemStr "honesty"] (bare_profile 2)));
    reflexivity.
Defined.

(** X10.  For two users with a profile whose stored values are strings, the
    match score lies between 0.28 and 0.92; the placeholders and the floor of
    the trust score keep it away from 0 and 1. *)
Theorem match_score_range (str_lower : string → string)
    (db : DB) (now : Z) (today : date) (user1 user2 : User) (p1 p2 : Profile) :
  profile user1 = Some p1 → profile user2 = Some p2 →
  values_are_strings p1 = true → values_are_strings p2 = true →
  ∃ (final_score : Q) (reasons : list string),
    calculate_match_score str_lower db now today user1 user2 = Ok (final_score, reasons)
    ∧ (0.28 <= final_score <= 0.92)%Q.
Proof.
  intros Hp1 Hp2 Hs1 Hs2.
  destruct (match_score_with_profiles str_lower db now today user1 user2 p1 p2
              Hp1 Hp2 Hs1 Hs2)
    as [values_result [final_score [Hv [Hscore [Hsum [_ [_ _]]]]]]].
  set (v1 := _build_feature_vector str_lower db user1 now today) in *.
  set (v2 := _build_feature_vector str_lower db user2 now today) in *.
  eexists final_score, _. split; [exact Hscore|].
  rewrite Hsum.
  pose proof (preference_alignment_floor v1 v2) as Hp0.
  pose proof (preference_alignment_bounds v1 v2) as [_ Hp1'].
  pose proof (interest_similarity_bounds v1 v2) as [Hi0 Hi1].
  pose proof (values_compatibility_bounds v1 v2 _ Hv) as [Hv0 Hv1].
  pose proof (behavioral_compatibility_range v1 v2) as [Hb0 Hb1].
  pose proof (trust_score_range user1) as [Ht10 Ht11].
  pose proof (trust_score_range user2) as [Ht20 Ht21].
  assert (Hr : ((_calculate_activity_recency v1 v2).1 == 0.7)%Q) by reflexivity.
  assert (Ht : ((_calculate_trust_safety_score v1 v2).1
               == (_calculate_trust_score user1 + _calculate_trust_score user2) / 2)%Q)
    by reflexivity.
  set (p := (_calculate_preference_alignment v1 v2).1) in *.
  set (i := (_calculate_interest_similarity v1 v2).1) in *.
  set (v := values_result.1) in *.
  set (b := (_calculate_behavioral_compatibility v1 v2).1) in *.
  set (t := (_calculate_trust_safety_score v1 v2).1) in *.
  set (r := (_calculate_activity_recency v1 v2).1) in *.
  set (t1 := _calculate_trust_score user1) in *.
  set (t2 := _calculate_trust_score user2) in *.
  clearbody p i v b t r t1 t2.
  assert (Ht' : (t == t1 * (1 # 2) + t2 * (1 # 2))%Q) by (rewrite Ht; field).
  split; Lqa.lra.
Qed.

Lemma match_score_range_witness :
  ∃ (final_score : Q) (reasons : list string),
    calculate_match_score ascii_lower empty_db now0 today0 (plain_user 1) (plain_user 2)
    = Ok (final_score, reasons)
    ∧ (0.28 <= final_score <= 0.92)%Q.
Proof.
  apply (match_score_range ascii_lower empty_db now0 today0
           (plain_user 1) (plain_user 2)
           (with_values [ItemStr "honesty"] (bare_profile 1))
           (with_values [ItemStr "honesty"] (bare_profile 2)));
    reflexivity.
Defined.

(** ** Trust levels and capabilities *)

Section RequiredVerifications.

(** The step of the loop in [get_required_verifications]. *)
Let step (acc : result (list string)) (level : Z) : result (list string) :=
  required ← acc;
  match TRUST_LEVELS level with
  | Some t =>
      let level_reqs := requirements t in
      Ok (required ++ filter (fun req => req ∉ required) level_reqs)
  | None => Raise KeyError
  end.

Lemma step_after_raise (e : exn) (levels : list Z) :
  foldl step (Raise e) levels = Raise e.
Proof. induction levels as [|l ls IH]; [reflexivity|]. cbn. exact IH. Qed.

Lemma step_unknown_level (levels : list Z) (acc : result (list string)) (level : Z) :
  level ∈ levels → TRUST_LEVELS level = None →
  (∃ r, acc = Ok r) ∨ acc = Raise KeyError →
  foldl step acc levels = Raise KeyError.
Proof.
  revert acc. induction levels as [|l ls IH]; intros acc Hin Hnone Hacc.
  - inversion Hin.
  - cbn [foldl]. destruct Hacc as [[r ->] | ->]; [|apply step_after_raise].
    apply elem_of_cons in Hin as [<- | Hin].
    + unfold step at 2. cbn. rewrite Hnone. apply step_after_raise.
    + apply IH; [exact Hin | exact Hnone |].
      unfold step. cbn. destruct (TRUST_LEVELS l); eauto.
Qed.

Lemma TRUST_LEVELS_above_four (level : Z) : (4 < level)%Z → TRUST_LEVELS level = None.
Proof.
  intros H. unfold TRUST_LEVELS.
  destruct (Z.eqb_spec level 0); [lia|]. destruct (Z.eqb_spec level 1); [lia|].
  destruct (Z.eqb_spec level 2); [lia|]. destruct (Z.eqb_spec level 3); [lia|].
  destruct (Z.eqb_spec level 4); [lia|]. reflexivity.
Qed.

Lemma required_verifications_loop (current_level target_level : Z) :
  (current_level < target_level)%Z →
  get_required_verifications current_level target_level
  = foldl step (Ok [])
      (map (fun i => (current_level + 1 + Z.of_nat i)%Z)
           (seq 0 (Z.to_nat (target_level - current_level)))).
Proof.
  intros H. unfold get_required_verifications.
  destruct (Z.leb_spec target_level current_level); [lia|]. reflexivity.
Qed.

Lemma required_verifications_unknown (current_level target_level : Z) :
  (current_level < target_level)%Z → (4 < target_level)%Z →
  get_required_verifications current_level target_level = Raise KeyError.
Proof.
  intros Hlt Hhigh. rewrite required_verifications_loop by exact Hlt.
  apply (step_unknown_level _ _ target_level);
    [| apply TRUST_LEVELS_above_four, Hhigh | left; eauto].
  apply list_elem_of_fmap. exists (Z.to_nat (target_level - current_level - 1)).
  split; [lia|]. apply elem_of_seq. lia.
Qed.

End RequiredVerifications.

(** X11.  Between two known levels, the verifications required to reach the
    target level are the full requirement list of the target level, whatever
    the current level already holds; nothing is required when the target is
    not above the current level. *)
Theorem required_verifications_known_levels (current_level target_level : Z) :
  (0 <= current_level)%Z → (target_level <= 4)%Z →
  get_required_verifications current_level target_level
  = Ok (if (target_level <=? current_level)%Z then []
        else match TRUST_LEVELS target_level with
             | Some t => requirements t
             | None => []
             end).
Proof.
  intros Hc Ht. destruct (Z.leb_spec target_level current_level) as [Hle|Hlt].
  - unfold get_required_verifications.
    destruct (Z.leb_spec target_level current_level); [reflexivity|lia].
  - assert (Hcs : (current_level = 0 ∨ current_level = 1 ∨ current_level = 2
                   ∨ current_level = 3)%Z) by lia.
    assert (Hts : (target_level = 1 ∨ target_level = 2 ∨ target_level = 3
                   ∨ target_level = 4)%Z) by lia.
    destruct Hcs as [-> | [-> | [-> | ->]]], Hts as [-> | [-> | [-> | ->]]];
      first [lia | reflexivity].
Qed.

(** From level 1 to level 3. *)
Lemma required_verifications_known_levels_witness :
  get_required_verifications 1 3
  = Ok ["email_verified"; "photo_verified"; "id_verified"].
Proof. apply (required_verifications_known_levels 1 3); lia. Defined.

(** X12.  Asking for a target level above 4 (and above the current level)
    raises [KeyError]. *)
Theorem required_verifications_beyond_levels (current_level target_level : Z) :
  (current_level < target_level)%Z → (4 < target_level)%Z →
  get_required_verifications current_level target_level = Raise KeyError.
Proof. intros Hlt Hhigh. apply required_verifications_unknown; assumption. Qed.

(** From level 2 to a level 5 that does not exist. *)
Lemma required_verifications_beyond_levels_witness :
  get_required_verifications 2 5 = Raise KeyError.
Proof. apply (required_verifications_beyond_levels 2 5); lia. Defined.

(** X13.  Capability checks follow the two flags the assessment reads.  For a
    user with a profile they return: everyone can browse, chat needs a
    verified e-mail address or a primary photo, and video needs a primary
    photo only.  For a user without [Profile] row the assessment and every
    capability check raise [RelatedObjectDoesNotExist]. *)
Theorem feature_access_by_flags (user : User) :
  match profile user with
  | Some p =>
      let photo := has_primary_photo p in
      can_access_feature user "browse" = Ok true
      ∧ can_access_feature user "chat" = Ok (is_verified user || photo)
      ∧ can_access_feature user "video" = Ok photo
      ∧ assess_trust_level user
        = Ok (if photo then 2 else if is_verified user then 1 else 0)%Z
  | None =>
      assess_trust_level user = Raise RelatedObjectDoesNotExist
      ∧ ∀ feature, can_access_feature user feature = Raise RelatedObjectDoesNotExist
  end.
Proof.
  destruct (profile user) as [p|] eqn:Hp.
  - unfold can_access_feature, assess_trust_level. rewrite Hp.
    destruct (is_verified user), (has_primary_photo p); cbn zeta;
      repeat split; reflexivity.
  - split; [by apply assess_trust_level_no_profile|].
    intros feature. by apply can_access_feature_no_profile.
Qed.

(** ** Profile completion *)

(** X14.  [Profile.calculate_completion_score] is ten times the number of
    criteria met among the ten it checks, hence a multiple of 10 between 0
    and 100. *)
Theorem completion_score_counts_criteria (u : User) (p : Profile) :
  calculate_completion_score u p
  = (10 * Z.of_nat
            (length
               (filter (fun b : bool => b = true)
                  [ truthy_str (bio p); truthy_obj (date_of_birth p);
                    truthy_str (gender p); truthy_str (looking_for p);
                    truthy_str (relationship_status p);
                    truthy_str (location p) && truthy_float (latitude p)
                    && truthy_float (longitude p);
                    has_primary_photo p; negb (bool_decide (interests p = []));
                    truthy_str (email u) && is_verified u; is_active p ])))%Z.
Proof.
  unfold calculate_completion_score.
  destruct (truthy_str (bio p)), (truthy_obj (date_of_birth p)),
    (truthy_str (gender p)), (truthy_str (looking_for p)),
    (truthy_str (relationship_status p)),
    (truthy_str (location p) && truthy_float (latitude p) && truthy_float (longitude p)),
    (has_primary_photo p), (negb (bool_decide (interests p = []))),
    (truthy_str (email u) && is_verified u), (is_active p);
    vm_compute; reflexivity.
Qed.

(** X15.  The percentage of [get_profile_completion] lies between 0 and 100
    and is 100 exactly when the seven basic fields are filled in: a missing
    photo or interest is left out of the total instead of counting against
    the profile. *)
Theorem profile_completion_full_iff_basic_fields (p : Profile) :
  (0 <= get_profile_completion p <= 100)%Z
  ∧ (get_profile_completion p = 100%Z
     ↔ truthy_str (bio p) && truthy_obj (date_of_birth p) && truthy_str (gender p)
       && truthy_str (looking_for p) && truthy_str (location p)
       && truthy_float (latitude p) && truthy_float (longitude p) = true).
Proof.
  unfold get_profile_completion.
  destruct (truthy_str (bio p)), (truthy_obj (date_of_birth p)),
    (truthy_str (gender p)), (truthy_str (looking_for p)),
    (truthy_str (location p)), (truthy_float (latitude p)),
    (truthy_float (longitude p)),
    (negb (bool_decide (photos p = []))), (negb (bool_decide (interests p = [])));
    vm_compute; (split; [split; discriminate | split; intros H; first [reflexivity | discriminate H]]).
Qed.

(** ** Cosine similarity, continued *)

Section SimilarityAlgebra.

Lemma np_dot_comm (a b : list R) : np_dot a b = np_dot b a.
Proof.
  unfold np_dot, np_sum. revert b. induction a as [|x a IH]; intros [|y b]; cbn;
    try reflexivity.
  rewrite IH, (Rmult_comm x y). reflexivity.
Qed.

Lemma shared_keys_comm (vector1 vector2 : gmap string R) :
  shared_keys vector1 vector2 = shared_keys vector2 vector1.
Proof. unfold shared_keys. rewrite (comm_L (∩) (dom vector1)). reflexivity. Qed.

(** The result, once the two lookups are known to succeed. *)
Lemma calculate_similarity_unfold (vector1 vector2 : gmap string R) :
  calculate_similarity vector1 vector2
  = let a := restricted vector1 (shared_keys vector1 vector2) in
    let b := restricted vector2 (shared_keys vector1 vector2) in
    if bool_decide (dom vector1 ∩ dom vector2 = (∅ : gset string)) then Ok 0%R
    else if Reqb (np_linalg_norm a) 0 || Reqb (np_linalg_norm b) 0 then Ok 0%R
         else np_divide (np_dot a b) (np_linalg_norm a * np_linalg_norm b).
Proof.
  unfold calculate_similarity. fold (shared_keys vector1 vector2).
  destruct (bool_decide _); [reflexivity|].
  rewrite getitem_shared_l, getitem_shared_r. reflexivity.
Qed.

(** A quotient of a dot product by the product of the norms stays in [-1,1]. *)
End SimilarityAlgebra.

(** X16.  The similarity does not depend on the order of its arguments. *)
Theorem calculate_similarity_symmetric (vector1 vector2 : gmap string R) :
  calculate_similarity vector1 vector2 = calculate_similarity vector2 vector1.
Proof.
  rewrite !calculate_similarity_unfold. cbn zeta.
  rewrite (shared_keys_comm vector2 vector1).
  rewrite (comm_L (∩) (dom vector2) (dom vector1)).
  destruct (bool_decide _); [reflexivity|].
  rewrite (orb_comm (Reqb (np_linalg_norm (restricted vector2 _)) 0)).
  destruct (_ || _); [reflexivity|].
  rewrite (np_dot_comm (restricted vector2 _)), (Rmult_comm (np_linalg_norm (restricted vector2 _))).
  reflexivity.
Qed.

(** ** Order of the answers *)

Section Ordering.

Lemma insert_sorted_ordered {A : Type} (lt : A → A → bool) (x : A) (l : list A) :
  (∀ a b, lt a b = true → lt b a = false) →
  (∀ a b c, lt b a = false → lt c b = false → lt c a = false) →
  StronglySorted (fun a b => lt b a = false) l →
  StronglySorted (fun a b => lt b a = false) (insert_sorted lt x l).
Proof.
  intros Hasym Htrans. induction l as [|y l IH]; intros Hs; cbn [insert_sorted].
  - repeat constructor.
  - apply StronglySorted_inv in Hs as [Hs Hy].
    destruct (lt y x) eqn:E.
    + constructor; [apply IH, Hs|].
      rewrite insert_sorted_Permutation. constructor; [apply Hasym, E | exact Hy].
    + constructor; [constructor; assumption|].
      constructor; [exact E|]. eapply Forall_impl; [exact Hy|].
      cbn. intros z Hz. apply (Htrans x y z); assumption.
Qed.

(** A stable sort leaves no element strictly after one it should precede. *)
Lemma stable_sort_ordered {A : Type} (lt : A → A → bool) (l : list A) :
  (∀ a b, lt a b = true → lt b a = false) →
  (∀ a b c, lt b a = false → lt c b = false → lt c a = false) →
  StronglySorted (fun a b => lt b a = false) (stable_sort lt l).
Proof.
  intros Hasym Htrans. unfold stable_sort.
  induction l as [|x l IH]; cbn [foldr]; [constructor|].
  apply insert_sorted_ordered; assumption.
Qed.

Lemma StronglySorted_with {A : Type} (R : relation A) (P : A → Prop) (l : list A) :
  StronglySorted R l → Forall P l →
  StronglySorted (fun a b => R a b ∧ P a ∧ P b) l.
Proof.
  induction 1 as [|x l Hs IH Hx]; intros Hall; [constructor|].
  apply Forall_cons in Hall as [Hpx Hall]. constructor; [apply IH, Hall|].
  rewrite Forall_forall in *. intros y Hy. auto.
Qed.

Lemma key_lt_asym (k1 k2 : bool * R) : key_lt k1 k2 = true → key_lt k2 k1 = false.
Proof.
  destruct k1 as [b1 s1], k2 as [b2 s2]. unfold key_lt, Rltb. cbn [fst snd].
  destruct b1, b2; cbn; try congruence.
  all: destruct (Rlt_dec s1 s2), (Rlt_dec s2 s1); try congruence; Lra.lra.
Qed.

Lemma key_lt_trans (k1 k2 k3 : bool * R) :
  key_lt k1 k2 = false → key_lt k2 k3 = false → key_lt k1 k3 = false.
Proof.
  destruct k1 as [b1 s1], k2 as [b2 s2], k3 as [b3 s3]. unfold key_lt, Rltb. cbn [fst snd].
  destruct b1, b2, b3; cbn; try congruence.
  all: destruct (Rlt_dec s1 s2), (Rlt_dec s2 s3), (Rlt_dec s1 s3); try congruence; Lra.lra.
Qed.

(** The keys computed for the sort, when none of them fails. *)
Lemma sort_keys_values (now : Z) (recommendations : list Recommendation)
    (keyed : list (bool * R * Recommendation)) :
  for_each (fun x => k ← sort_key now x; Ok (k, x)) recommendations = Ok keyed →
  Forall (fun kx => kx.1 = (is_boosted now (rec_profile kx.2), similarity kx.2)) keyed.
Proof.
  revert keyed. induction recommendations as [|x xs IH]; intros keyed; cbn [for_each].
  - intros [= <-]. constructor.
  - destruct (sort_key now x) as [k|e] eqn:Ek; cbn; [|discriminate].
    destruct (for_each _ xs) as [keyed'|e]; cbn; [|discriminate].
    intros [= <-]. constructor; [|apply IH; reflexivity].
    unfold sort_key in Ek. unfold is_boosted. cbn [fst snd].
    destruct (boost_expiry (rec_profile x)); [|discriminate].
    injection Ek as <-. reflexivity.
Qed.

(** The keys are computed for all entries, or the first null expiry raises. *)
Lemma sort_keys_outcome (now : Z) (recommendations : list Recommendation) :
  if forallb (fun x => truthy_obj (boost_expiry (rec_profile x))) recommendations
  then ∃ keyed, for_each (fun x => k ← sort_key now x; Ok (k, x)) recommendations = Ok keyed
  else for_each (fun x => k ← sort_key now x; Ok (k, x)) recommendations = Raise TypeError.
Proof.
  induction recommendations as [|x xs IH]; cbn [forallb for_each]; [eauto|].
  assert (Hk : sort_key now x
               = match boost_expiry (rec_profile x) with
                 | Some expiry => Ok ((now <? expiry)%Z, similarity x)
                 | None => Raise TypeError
                 end) by reflexivity.
  rewrite Hk. clear Hk.
  destruct (boost_expiry (rec_profile x)); cbn [truthy_obj andb].
  - destruct (forallb _ xs).
    + destruct IH as [keyed ->]. cbn. eauto.
    + rewrite IH. reflexivity.
  - reflexivity.
Qed.

Lemma forallb_fmap {A B : Type} (f : B → bool) (g : A → B) (l : list A) :
  forallb f (map g l) = forallb (fun x => f (g x)) l.
Proof. induction l as [|x l IH]; cbn; [reflexivity|]. rewrite IH. reflexivity. Qed.

End Ordering.

(** X19.  In the AI path the sort raises [TypeError] as soon as one
    candidate has a null [boost_expiry]; when every candidate has a boost
    expiry the path returns a list. *)
Theorem ai_path_fails_on_null_boost (db : DB) (now : Z) (user : User)
    (user_feature_vector : gmap string R) (base_queryset : list Profile) :
  if forallb (fun c => truthy_obj (boost_expiry c))
             (candidate_profiles db user base_queryset)
  then ∃ l, ai_powered db now user user_feature_vector base_queryset = Ok l
  else ai_powered db now user user_feature_vector base_queryset = Raise TypeError.
Proof.
  destruct (scoring_loop_keeps_candidates db user_feature_vector
              (candidate_profiles db user base_queryset)) as [recs [Hrecs Hmap]].
  unfold ai_powered. rewrite Hrecs. cbn.
  rewrite <- Hmap, forallb_fmap.
  pose proof (sort_keys_outcome now recs) as Hkeys.
  unfold top_recommendations, sort_recommendations.
  destruct (forallb _ recs).
  - destruct Hkeys as [keyed ->]. cbn. eauto.
  - rewrite Hkeys. reflexivity.
Qed.

(** X20.  The ranking of the AI path lists every boosted entry before every
    entry that is not boosted and, among entries of equal boost status, goes
    by decreasing similarity. *)
Theorem ranking_boosted_then_similarity (now : Z)
    (recommendations ranked : list Recommendation) :
  sort_recommendations now recommendations = Ok ranked →
  StronglySorted
    (fun x y =>
       (is_boosted now (rec_profile y) = true → is_boosted now (rec_profile x) = true)
       ∧ (is_boosted now (rec_profile x) = is_boosted now (rec_profile y) →
          (similarity y <= similarity x)%R))
    ranked.
Proof.
  unfold sort_recommendations.
  destruct (for_each _ recommendations) as [keyed|e] eqn:Ekeyed; cbn; [|discriminate].
  intros [= <-].
  pose proof (sort_keys_values now recommendations keyed Ekeyed) as Hkeys.
  set (lt := fun a b : bool * R * Recommendation => key_lt b.1 a.1).
  assert (Hsorted : StronglySorted (fun a b => lt b a = false) (stable_sort lt keyed)).
  { apply stable_sort_ordered; subst lt; cbn beta.
    - intros a b. apply key_lt_asym.
    - intros a b c H1 H2. apply (key_lt_trans a.1 b.1 c.1); assumption. }
  rewrite <- (stable_sort_Permutation lt keyed) in Hkeys.
  pose proof (StronglySorted_with _ _ _ Hsorted Hkeys) as Hboth.
  eapply (StronglySorted_fmap snd); [|exact Hboth].
  intros [ka a] [kb b]. subst lt. cbn. intros [Hlt [-> ->]].
  unfold key_lt, Rltb in Hlt. cbn [fst snd] in Hlt.
  destruct (is_boosted now (rec_profile a)), (is_boosted now (rec_profile b));
    cbn in Hlt; try discriminate; split; try congruence; intros _.
  all: destruct (Rlt_dec (similarity a) (similarity b)); [discriminate | Lra.lra].
Qed.

(** A scored pool of one boosted and one unboosted candidate. *)
Lemma ranking_boosted_then_similarity_witness :
  StronglySorted
    (fun x y =>
       (is_boosted now0 (rec_profile y) = true → is_boosted now0 (rec_profile x) = true)
       ∧ (is_boosted now0 (rec_profile x) = is_boosted now0 (rec_profile y) →
          (similarity y <= similarity x)%R))
    [ {| rec_profile := cand_b; similarity := 0.4 |};
      {| rec_profile := cand_a; similarity := 0.9 |} ].
Proof.
  apply (ranking_boosted_then_similarity now0
           [ {| rec_profile := cand_a; similarity := 0.9 |};
             {| rec_profile := cand_b; similarity := 0.4 |} ]).
  reflexivity.
Defined.

(** ** What the endpoint returns *)

Section EndpointAnswers.

Variable haversine_distance : Q → Q → Q → Q → result R.
Variable random_order : Z → Z.
Variables (db : DB) (now : Z) (today : date) (user : User).

Lemma location_filter_subseteq (user_profile : Profile)
    (base_queryset filtered : list Profile) :
  location_filter haversine_distance user_profile base_queryset = Ok filtered →
  filtered ⊆ base_queryset.
Proof.
  assert (Hc : country_filter user_profile base_queryset ⊆ base_queryset).
  { unfold country_filter. destruct (truthy_str _); [apply list_subseteq_filter; apply _|done]. }
  unfold location_filter.
  destruct (is_passport_enabled user_profile);
    repeat match goal with
      | |- context [match ?o with Some _ => _ | None => _ end] => destruct o
      | |- context [if ?b then _ else _] => destruct b
      | |- context [filter_each ?f ?l] => destruct (filter_each f l); cbn [mbind result_bind]
      end; intros [= <-]; first [exact Hc | apply list_subseteq_filter; apply _].
Qed.

Lemma ai_powered_from_candidates (user_feature_vector : gmap string R)
    (base_queryset l : list Profile) :
  ai_powered db now user user_feature_vector base_queryset = Ok l →
  l ⊆ candidate_profiles db user base_queryset ∧ (length l <= 10)%nat.
Proof.
  destruct (scoring_loop_keeps_candidates db user_feature_vector
              (candidate_profiles db user base_queryset)) as [recs [Hrecs Hmap]].
  unfold ai_powered. rewrite Hrecs. cbn. unfold top_recommendations.
  destruct (sort_recommendations now recs) as [ranked|e] eqn:Es; cbn; [|discriminate].
  intros [= <-]. split.
  - rewrite <- Hmap. intros p Hp. apply list_elem_of_fmap in Hp as [x [-> Hx]].
    apply list_elem_of_fmap. exists x. split; [reflexivity|].
    apply subseteq_take in Hx.
    rewrite (sort_recommendations_Permutation now recs ranked Es) in Hx. exact Hx.
  - rewrite length_map, length_take. lia.
Qed.

(** Every answer is drawn from the candidates of the filtered pool. *)
Lemma recommendations_from_pool (l : list Profile) :
  profile_recommendations haversine_distance random_order db now today user = Ok l →
  l = []
  ∨ ∃ user_profile min_birth_date max_birth_date base_queryset,
      profile user = Some user_profile
      ∧ location_filter haversine_distance user_profile
          (hard_filter db user min_birth_date max_birth_date) = Ok base_queryset
      ∧ l ⊆ candidate_profiles db user base_queryset
      ∧ (length l <= 10)%nat.
Proof.
  unfold profile_recommendations.
  destruct (profile user) as [up|]; [|intros [= <-]; left; reflexivity].
  destruct (replace_year today (year today - max_age up)) as [lo|e];
    cbn [mbind result_bind]; [|discriminate].
  destruct (replace_year today (year today - min_age up)) as [hi|e];
    cbn [mbind result_bind]; [|discriminate].
  destruct (location_filter haversine_distance up (hard_filter db user lo hi))
    as [base|e] eqn:Ebase; cbn [mbind result_bind]; [|discriminate].
  intros Hl. right. exists up, lo, hi, base. split; [reflexivity|]. split; [exact Ebase|].
  rewrite !interest_based_raises in Hl.
  destruct (feature_vectors db !! user_id user) as [fv|]; [|discriminate].
  destruct (bool_decide (fv = ∅)); [discriminate|].
  apply (ai_powered_from_candidates fv), Hl.
Qed.


Lemma candidate_profiles_subseteq (base_queryset : list Profile) :
  candidate_profiles db user base_queryset ⊆ base_queryset.
Proof.
  unfold candidate_profiles.
  destruct (exclude_swiped db user base_queryset) eqn:E; [done|].
  rewrite <- E. unfold exclude_swiped. apply list_subseteq_filter.
Qed.

Lemma hard_filter_eligible (lo hi : date) (p : Profile) :
  p ∈ hard_filter db user lo hi →
  p ∈ profiles db ∧ is_active p = true ∧ is_hidden p = false
  ∧ born_between lo hi p = true.
Proof.
  unfold hard_filter. intros Hp. apply list_elem_of_filter in Hp as [Hc Hin].
  apply andb_prop in Hc as [Hc _]. apply andb_prop in Hc as [Hc Hborn].
  apply andb_prop in Hc as [Hact Hhid]. apply negb_true_iff in Hhid. auto.
Qed.

End EndpointAnswers.

(** X22.  Whatever branch is taken, a successful answer holds at most ten
    profiles, each of them stored, active, not hidden, different from the
    requester and not in a block relation with the requester in either
    direction. *)
Theorem recommendations_are_eligible
    (haversine_distance : Q → Q → Q → Q → result R) (random_order : Z → Z)
    (db : DB) (now : Z) (today : date) (user : User) (l : list Profile) :
  profile_recommendations haversine_distance random_order db now today user = Ok l →
  (length l <= 10)%nat
  ∧ ∀ p, p ∈ l →
         p ∈ profiles db ∧ is_active p = true ∧ is_hidden p = false
         ∧ profile_user p ≠ user_id user ∧ is_blocked_with db user p = false.
Proof.
  intros Hl.
  apply recommendations_from_pool in Hl as [-> | [up [lo [hi [base [_ [Hbase [Hsub Hlen]]]]]]]].
  - split; [cbn; lia|]. intros p Hp. inversion Hp.
  - split; [exact Hlen|]. intros p Hp.
    apply Hsub, candidate_profiles_subseteq in Hp.
    apply (location_filter_subseteq _ _ _ _ Hbase) in Hp.
    destruct (hard_filter_eligible db user lo hi p Hp) as [Hin [Hact [Hhid _]]].
    destruct (hard_filter_not_blocked db user lo hi p Hp) as [Hself Hblock].
    auto.
Qed.

(** The answer for [half_swiped_pool]: the one candidate not yet swiped on. *)
Lemma recommendations_are_eligible_witness :
  (length [with_boost (now0 + 3600) (bare_profile 3)] <= 10)%nat
  ∧ ∀ p, p ∈ [with_boost (now0 + 3600) (bare_profile 3)] →
         p ∈ profiles half_swiped_pool ∧ is_active p = true ∧ is_hidden p = false
         ∧ profile_user p ≠ user_id requester
         ∧ is_blocked_with half_swiped_pool requester p = false.
Proof.
  apply (recommendations_are_eligible no_distance (fun _ => 0%Z)
           half_swiped_pool now0 today0 requester).
  vm_compute. reflexivity.
Defined.

(** X23.  A successful answer never mixes new and already-swiped profiles:
    either none of the returned profiles was swiped on by the requester, or
    (the fallback) all of them were. *)
Theorem recommendations_all_new_or_all_swiped
    (haversine_distance : Q → Q → Q → Q → result R) (random_order : Z → Z)
    (db : DB) (now : Z) (today : date) (user : User) (l : list Profile) :
  profile_recommendations haversine_distance random_order db now today user = Ok l →
  (∀ p, p ∈ l → profile_user p ∉ swiped_user_ids db user)
  ∨ (∀ p, p ∈ l → profile_user p ∈ swiped_user_ids db user).
Proof.
  intros Hl.
  apply recommendations_from_pool in Hl as [-> | [up [lo [hi [base [_ [_ [Hsub _]]]]]]]].
  - left. intros p Hp. inversion Hp.
  - revert Hsub. unfold candidate_profiles.
    destruct (exclude_swiped db user base) as [|c cs] eqn:E; intros Hsub.
    + right. intros p Hp. apply Hsub in Hp.
      destruct (decide (profile_user p ∈ swiped_user_ids db user)) as [Hs|Hs]; [exact Hs|].
      assert (Hin : p ∈ exclude_swiped db user base).
      { unfold exclude_swiped. apply list_elem_of_filter. split; assumption. }
      rewrite E in Hin. inversion Hin.
    + left. intros p Hp. apply Hsub in Hp. rewrite <- E in Hp.
      unfold exclude_swiped in Hp. apply list_elem_of_filter in Hp. tauto.
Qed.

(** In [half_swiped_pool] the answer holds the unswiped candidate only. *)
Lemma recommendations_all_new_or_all_swiped_witness :
  (∀ p, p ∈ [with_boost (now0 + 3600) (bare_profile 3)] →
        profile_user p ∉ swiped_user_ids half_swiped_pool requester)
  ∨ (∀ p, p ∈ [with_boost (now0 + 3600) (bare_profile 3)] →
          profile_user p ∈ swiped_user_ids half_swiped_pool requester).
Proof.
  apply (recommendations_all_new_or_all_swiped no_distance (fun _ => 0%Z)
           half_swiped_pool now0 today0 requester).
  vm_compute. reflexivity.
Defined.



(** ** Location *)

(** X24.  The distance filter is skipped, and the country filter used
    instead, whenever an effective coordinate is missing or equal to 0; with
    passport mode enabled only the passport coordinates count and the home
    coordinates are ignored. *)
Theorem location_filter_needs_nonzero_coordinates
    (haversine_distance : Q → Q → Q → Q → result R)
    (user_profile : Profile) (base_queryset : list Profile) :
  (if is_passport_enabled user_profile
   then truthy_float (passport_latitude user_profile)
        && truthy_float (passport_longitude user_profile)
   else truthy_float (latitude user_profile) && truthy_float (longitude user_profile))
  = false →
  location_filter haversine_distance user_profile base_queryset
  = Ok (country_filter user_profile base_queryset).
Proof.
  unfold location_filter.
  destruct (is_passport_enabled user_profile).
  - destruct (passport_latitude user_profile) as [lat|],
      (passport_longitude user_profile) as [lon|]; try reflexivity.
    intros ->. reflexivity.
  - destruct (latitude user_profile) as [lat|], (longitude user_profile) as [lon|];
      try reflexivity.
    intros ->. reflexivity.
Qed.

(** A requester on the equator, outside passport mode. *)
Lemma location_filter_needs_nonzero_coordinates_witness :
  location_filter no_distance (with_coordinates 0 2.35 (bare_profile 1))
    [parisian 2]
  = Ok (country_filter (with_coordinates 0 2.35 (bare_profile 1)) [parisian 2]).
Proof.
  apply (location_filter_needs_nonzero_coordinates no_distance
           (with_coordinates 0 2.35 (bare_profile 1)) [parisian 2]).
  reflexivity.
Defined.

Section DistanceStage.

Variable haversine_distance : Q → Q → Q → Q → result R.

Lemma filter_each_Ok {A : Type} (f : A → result bool) (l kept : list A) :
  filter_each f l = Ok kept → ∀ x, x ∈ kept ↔ x ∈ l ∧ f x = Ok true.
Proof.
  revert kept. induction l as [|y l IH]; intros kept; cbn [filter_each].
  - intros [= <-] x. split; [intros H; inversion H | intros [H _]; inversion H].
  - destruct (f y) as [keep|e] eqn:Ey; cbn [mbind result_bind]; [|discriminate].
    destruct (filter_each f l) as [kept'|e]; cbn [mbind result_bind]; [|discriminate].
    intros [= <-] x. specialize (IH kept' eq_refl x). destruct keep.
    + rewrite !elem_of_cons, IH. split.
      * intros [-> | [H1 H2]]; [split; [left; reflexivity|exact Ey]|].
        split; [right; exact H1 | exact H2].
      * intros [[-> | H1] H2]; [left; reflexivity | right; split; assumption].
    + rewrite elem_of_cons, IH. split.
      * intros [H1 H2]. split; [right; exact H1 | exact H2].
      * intros [[-> | H1] H2]; [congruence | split; assumption].
Qed.

Lemma filter_each_returns {A : Type} (f : A → result bool) (l : list A) :
  (∀ x, x ∈ l → ∃ b, f x = Ok b) → ∃ kept, filter_each f l = Ok kept.
Proof.
  induction l as [|y l IH]; intros Hall; cbn [filter_each]; [by eexists|].
  destruct (Hall y) as [b ->]; [left|].
  destruct IH as [kept ->]; [intros x Hx; apply Hall; by right|].
  cbn [mbind result_bind]. by eexists.
Qed.

Lemma filter_each_Raise {A : Type} (f : A → result bool) (l : list A) (e : exn) :
  filter_each f l = Raise e → ∃ x, x ∈ l ∧ f x = Raise e.
Proof.
  induction l as [|y l IH]; cbn [filter_each]; [discriminate|].
  destruct (f y) as [keep|e'] eqn:Ey; cbn [mbind result_bind].
  - destruct (filter_each f l) as [kept|e']; cbn [mbind result_bind]; [discriminate|].
    intros [= ->]. destruct IH as [x [Hx Hfx]]; [reflexivity|].
    exists x. split; [by right | exact Hfx].
  - intros [= ->]. exists y. split; [by left | exact Ey].
Qed.

(** The body of the distance loop, case by case. *)
Lemma within_distance_true (lat lon : Q) (limit : Z) (p : Profile) :
  within_distance haversine_distance lat lon limit p = Ok true
  ↔ ∃ plat plon distance,
      latitude p = Some plat ∧ longitude p = Some plon
      ∧ haversine_distance lat lon plat plon = Ok distance
      ∧ (distance <= IZR limit)%R.
Proof.
  unfold within_distance. split.
  - destruct (latitude p) as [plat|], (longitude p) as [plon|]; try discriminate.
    destruct (haversine_distance lat lon plat plon) as [distance|e] eqn:Ed;
      cbn [mbind result_bind]; [|discriminate].
    unfold Rleb. destruct (Rle_dec distance (IZR limit)); [|discriminate].
    intros _. by exists plat, plon, distance.
  - intros [plat [plon [distance [-> [-> [-> Hle]]]]]]. cbn [mbind result_bind].
    unfold Rleb. destruct (Rle_dec distance (IZR limit)); [reflexivity|contradiction].
Qed.

Lemma within_distance_Raise (lat lon : Q) (limit : Z) (p : Profile) (e : exn) :
  within_distance haversine_distance lat lon limit p = Raise e →
  ∃ plat plon, latitude p = Some plat ∧ longitude p = Some plon
               ∧ haversine_distance lat lon plat plon = Raise e.
Proof.
  unfold within_distance.
  destruct (latitude p) as [plat|], (longitude p) as [plon|]; try discriminate.
  destruct (haversine_distance lat lon plat plon) as [distance|e'] eqn:Ed;
    cbn [mbind result_bind]; [discriminate|].
  intros [= ->]. by exists plat, plon.
Qed.

Lemma within_distance_returns (lat lon : Q) (limit : Z) (p : Profile) :
  (∀ plat plon, latitude p = Some plat → longitude p = Some plon →
                ∃ distance, haversine_distance lat lon plat plon = Ok distance) →
  ∃ b, within_distance haversine_distance lat lon limit p = Ok b.
Proof.
  intros Hd. unfold within_distance.
  destruct (latitude p) as [plat|], (longitude p) as [plon|]; try by eexists.
  destruct (Hd plat plon eq_refl eq_refl) as [distance ->]. by eexists.
Qed.

(** With usable coordinates the location stage is the distance loop followed
    by the filter on the collected keys. *)
Lemma location_filter_with_coordinates (user_profile : Profile)
    (base_queryset : list Profile) (lat lon : Q) :
  (if is_passport_enabled user_profile
   then (passport_latitude user_profile, passport_longitude user_profile)
   else (latitude user_profile, longitude user_profile)) = (Some lat, Some lon) →
  truthy_float (Some lat) && truthy_float (Some lon) = true →
  location_filter haversine_distance user_profile base_queryset
  = (within ← filter_each (within_distance haversine_distance lat lon
                             (max_distance user_profile)) base_queryset;
     Ok (filter (fun p => profile_user p ∈ map profile_user within) base_queryset)).
Proof.
  intros Hcoord Htruthy. unfold location_filter. rewrite Hcoord, Htruthy. reflexivity.
Qed.

End DistanceStage.

(** X26.  For a requester whose effective coordinates (the passport
    coordinates in passport mode, the home coordinates otherwise) are both
    present and non-zero, the location stage
    - returns when the distance function returns on every pool member that
      has coordinates,
    - then keeps exactly the pool members whose key is that of a member with
      coordinates at a distance of at most [max_distance],
    - and raises only what the distance function raised on such a member. *)
Theorem distance_stage_keeps_near_profiles
    (haversine_distance : Q → Q → Q → Q → result R)
    (user_profile : Profile) (base_queryset : list Profile) (lat lon : Q) :
  (if is_passport_enabled user_profile
   then (passport_latitude user_profile, passport_longitude user_profile)
   else (latitude user_profile, longitude user_profile)) = (Some lat, Some lon) →
  truthy_float (Some lat) && truthy_float (Some lon) = true →
  ((∀ q plat plon, q ∈ base_queryset → latitude q = Some plat → longitude q = Some plon →
                   ∃ distance, haversine_distance lat lon plat plon = Ok distance) →
   ∃ filtered, location_filter haversine_distance user_profile base_queryset = Ok filtered)
  ∧ (∀ filtered,
       location_filter haversine_distance user_profile base_queryset = Ok filtered →
       ∀ p, p ∈ filtered
            ↔ p ∈ base_queryset
              ∧ ∃ q plat plon distance,
                  q ∈ base_queryset ∧ profile_user q = profile_user p
                  ∧ latitude q = Some plat ∧ longitude q = Some plon
                  ∧ haversine_distance lat lon plat plon = Ok distance
                  ∧ (distance <= IZR (max_distance user_profile))%R)
  ∧ (∀ e,
       location_filter haversine_distance user_profile base_queryset = Raise e →
       ∃ q plat plon,
         q ∈ base_queryset ∧ latitude q = Some plat ∧ longitude q = Some plon
         ∧ haversine_distance lat lon plat plon = Raise e).
Proof.
  intros Hcoord Htruthy.
  rewrite (location_filter_with_coordinates haversine_distance user_profile base_queryset
             lat lon Hcoord Htruthy).
  set (f := within_distance haversine_distance lat lon (max_distance user_profile)).
  split; [|split].
  - intros Hd. destruct (filter_each_returns f base_queryset) as [within ->].
    + intros q Hq. apply within_distance_returns. intros plat plon. by apply Hd.
    + by eexists.
  - intros filtered.
    destruct (filter_each f base_queryset) as [within|e] eqn:Ew;
      cbn [mbind result_bind]; [|discriminate].
    intros [= <-] p. rewrite list_elem_of_filter, list_elem_of_fmap.
    split.
    + intros [[q [Hkey Hq]] Hp]. split; [exact Hp|].
      apply (filter_each_Ok f _ _ Ew) in Hq as [Hq Hf].
      apply within_distance_true in Hf
        as [plat [plon [distance [Hlat [Hlon [Hd Hle]]]]]].
      by exists q, plat, plon, distance.
    + intros [Hp [q [plat [plon [distance [Hq [Hkey [Hlat [Hlon [Hd Hle]]]]]]]]]].
      split; [|exact Hp]. exists q. split; [by symmetry|].
      apply (filter_each_Ok f _ _ Ew). split; [exact Hq|].
      apply within_distance_true. by exists plat, plon, distance.
  - intros e.
    destruct (filter_each f base_queryset) as [within|e'] eqn:Ew;
      cbn [mbind result_bind]; [discriminate|].
    intros [= ->]. apply filter_each_Raise in Ew as [q [Hq Hf]].
    apply within_distance_Raise in Hf as [plat [plon [Hlat [Hlon Hd]]]].
    by exists q, plat, plon.
Qed.

(** Two profiles at the same place, under the distance that is 0
    everywhere. *)
Lemma distance_stage_keeps_near_profiles_witness :
  ((∀ q plat plon, q ∈ [parisian 2] → latitude q = Some plat → longitude q = Some plon →
                   ∃ distance, no_distance 48.85 2.35 plat plon = Ok distance) →
   ∃ filtered, location_filter no_distance (parisian 1) [parisian 2] = Ok filtered)
  ∧ (∀ filtered,
       location_filter no_distance (parisian 1) [parisian 2] = Ok filtered →
       ∀ p, p ∈ filtered
            ↔ p ∈ [parisian 2]
              ∧ ∃ q plat plon distance,
                  q ∈ [parisian 2] ∧ profile_user q = profile_user p
                  ∧ latitude q = Some plat ∧ longitude q = Some plon
                  ∧ no_distance 48.85 2.35 plat plon = Ok distance
                  ∧ (distance <= IZR (max_distance (parisian 1)))%R)
  ∧ (∀ e,
       location_filter no_distance (parisian 1) [parisian 2] = Raise e →
       ∃ q plat plon,
         q ∈ [parisian 2] ∧ latitude q = Some plat ∧ longitude q = Some plon
         ∧ no_distance 48.85 2.35 plat plon = Raise e).
Proof.
  apply (distance_stage_keeps_near_profiles no_distance (parisian 1) [parisian 2]
           48.85 2.35); reflexivity.
Defined.

(** ** Virtual currency and boosts *)

Section AccountsFacts.

Lemma date_eqb_refl (d : date) : date_eqb d d = true.
Proof. unfold date_eqb. rewrite !Z.eqb_refl. reflexivity. Qed.

End AccountsFacts.

(** X28.  Neither endpoint drives the balance below zero: a boost is
    refused when it costs more than the balance, and the daily reward only
    adds. *)
Theorem balance_never_negative (boosts : list Boost) (now : Z) (today : date)
    (id : option Z) (acc : Account) :
  (0 <= virtual_currency acc)%Z →
  (0 <= virtual_currency (activate_boost boosts now id acc).1)%Z
  ∧ (0 <= virtual_currency (daily_login_reward today acc).1)%Z.
Proof.
  intros Hacc. unfold activate_boost, daily_login_reward. split.
  - destruct (get_boost boosts id) as [boost|]; [|exact Hacc].
    destruct (Z.ltb_spec (virtual_currency acc) (cost boost)); cbn; lia.
  - destruct (negb _); cbn; lia.
Qed.

(** An account with 25 coins buying the one-day boost. *)
Lemma balance_never_negative_witness :
  (0 <= virtual_currency (activate_boost boost_catalogue now0 (Some 1%Z) rich_account).1)%Z
  ∧ (0 <= virtual_currency (daily_login_reward today0 rich_account).1)%Z.
Proof.
  apply (balance_never_negative boost_catalogue now0 today0 (Some 1%Z) rich_account).
  cbn. lia.
Defined.

(** X29.  The daily reward is granted at most once per day: a second request
    on the same day is answered with 400 and leaves the account as the first
    request left it. *)
Theorem daily_reward_once_per_day (today : date) (acc : Account) :
  daily_login_reward today (daily_login_reward today acc).1
  = ((daily_login_reward today acc).1, HTTP_400_BAD_REQUEST)
  ∧ (virtual_currency (daily_login_reward today acc).1 <= virtual_currency acc + 10)%Z.
Proof.
  unfold daily_login_reward.
  destruct (field_is_date (last_login_reward_date acc) today) eqn:E; cbn [negb fst].
  - rewrite E. cbn. split; [reflexivity|lia].
  - cbn [last_login_reward_date field_is_date virtual_currency].
    rewrite date_eqb_refl. cbn. split; [reflexivity|lia].
Qed.

(** X30.  An activation that is not answered with 200 leaves the account
    untouched; one answered with 200 found the boost, took exactly its cost
    from a sufficient balance and, for a boost of at least one day, leaves
    the profile boosted at the time of the request, with a sort key that can
    be computed. *)
Theorem activate_boost_outcomes (boosts : list Boost) (now : Z) (id : option Z)
    (acc : Account) :
  let acc' := (activate_boost boosts now id acc).1 in
  let status := (activate_boost boosts now id acc).2 in
  (status ≠ HTTP_200_OK → acc' = acc)
  ∧ (status = HTTP_200_OK →
     ∃ boost, get_boost boosts id = Some boost
              ∧ (cost boost <= virtual_currency acc)%Z
              ∧ virtual_currency acc' = (virtual_currency acc - cost boost)%Z
              ∧ ((0 < duration_days boost)%Z →
                 is_boosted now (account_profile acc') = true
                 ∧ ∀ s, sort_key now {| rec_profile := account_profile acc';
                                       similarity := s |}
                        = Ok (true, s))).
Proof.
  unfold activate_boost.
  destruct (get_boost boosts id) as [boost|]; cbn zeta;
    [|split; [reflexivity|discriminate]].
  destruct (Z.ltb_spec (virtual_currency acc) (cost boost)) as [Hlt|Hge]; cbn [fst snd];
    [split; [reflexivity|discriminate]|].
  split; [intros H; contradiction|]. intros _. exists boost.
  split; [reflexivity|]. split; [exact Hge|]. split; [reflexivity|].
  intros Hdays. split.
  - unfold is_boosted. cbn. apply Z.ltb_lt. lia.
  - intros s. unfold sort_key. cbn. f_equal. f_equal. apply Z.ltb_lt. lia.
Qed.
